(** * Conversation bookkeeping and stream consumption of the OpenAI SDK examples

    A shallow embedding of the parts of [openai_sdk_complete_guide.py] and
    [quick_start_examples.py] that keep local state: the closure
    [chat_with_context] over the list [conversation_history], and the two
    loops that print a streamed completion.

    Python values are modelled as follows.
    - A list object lives in a store ([heap]) and is named by a reference;
      [conversation_history.append(x)] updates the store in place.
    - [print] appends to [stdout].
    - [client.chat.completions.create] is the only remote operation.  Every
      call of it is recorded, in order, in [wire], with the arguments it was
      given; what the call returns or raises is given by an [Endpoint], which
      may depend on all the calls made so far.  A call is not a
      transmission: the SDK may send the same request again inside one call
      before it returns or raises (see [transmit]).
    - A Python exception is a [Raised] result that skips the rest of the
      block, up to the nearest [try_except].

    The specification also names [reset], [history] and a configuration
    with overrides.  The sources have none of them; they are modelled from
    the specification's words, each marked as such, next to the code.

    Further down come the runner of the quick start and the examples of both
    files that work with local files and with other remote calls (speech,
    files, assistants, the list of models), over a state of their own. *)

From Stdlib Require Import ZArith QArith Qcanon Ascii String Sorted.
From stdpp Require Import gmap strings list pretty.

Local Open Scope string_scope.
Local Open Scope list_scope.

(** ** Data *)

(** The ["role"] entry of a message dictionary. *)
Inductive Role := system | user | assistant.

(** A message dictionary [{"role": ..., "content": ...}]. *)
Record Message := { role : Role; content : string }.

Global Instance Role_eq_dec : EqDecision Role.
Proof. solve_decision. Defined.

Global Instance Message_eq_dec : EqDecision Message.
Proof. solve_decision. Defined.

(** The exception classes named in [error_handling_example]; anything else
    is a plain [Exception].  [exn_text] is what [str(e)] gives. *)
Inductive ExnClass := APIError | RateLimitError | APITimeoutError | Exception.

Record Exn := { exn_class : ExnClass; exn_text : string }.

(** The keyword arguments of [client.chat.completions.create] that the
    modelled calls pass.  [messages] is the content of the list at the time
    of the call; an argument that is not passed is [None] ([stream] defaults
    to [false]). *)
Record Request := {
  model : string;
  messages : list Message;
  max_tokens : option Z;
  stream : bool
}.

(** A complete answer, as far as the code reads it:
    [response.choices[0].message.content]. *)
Record Response := { message_content : string }.

(** A streamed chunk, as far as the code reads it:
    [chunk.choices[0].delta.content], which may be [None]. *)
Record Chunk := { delta_content : option string }.

(** A stream delivers its chunks in order and then either ends or raises. *)
Record Stream := { chunks : list Chunk; broken : option Exn }.

(** The remote service as the code meets it: what a call of [create]
    returns or raises, re-sending by the SDK included.  Both entry points
    see the calls made before. *)
Record Endpoint := {
  complete : list Request -> Request -> Exn + Response;
  open_stream : list Request -> Request -> Exn + Stream
}.

(** ** Program state *)

Abbreviation ref := positive.

Record State := {
  heap : gmap positive (list Message);
  wire : list Request;
  stdout : string
}.

(** The content of the list object behind a reference. *)
Definition transcript (l : ref) (s : State) : list Message := heap s !!! l.

(** ** Statements that may raise *)

Inductive Result (A : Type) := Returned (a : A) | Raised (e : Exn).
Arguments Returned {A} a.
Arguments Raised {A} e.

Definition M (A : Type) : Type := State -> Result A * State.

Definition ret {A} (a : A) : M A := fun s => (Returned a, s).

Definition bind {A B} (m : M A) (k : A -> M B) : M B :=
  fun s =>
    match m s with
    | (Returned a, s') => k a s'
    | (Raised e, s') => (Raised e, s')
    end.

Definition raise {A} (e : Exn) : M A := fun s => (Raised e, s).

(** [try: body except Exception as e: handler(e)]. *)
Definition try_except {A} (body : M A) (handler : Exn -> M A) : M A :=
  fun s =>
    match body s with
    | (Returned a, s') => (Returned a, s')
    | (Raised e, s') => handler e s'
    end.

Notation "x <- m ;; k" := (bind m (fun x => k))
  (at level 100, m at next level, right associativity).
Notation "m ;; k" := (bind m (fun _ => k))
  (at level 100, right associativity).

(** [for x in xs: body(x)]. *)
Fixpoint for_each {A} (xs : list A) (body : A -> M unit) : M unit :=
  match xs with
  | [] => ret tt
  | x :: xs' => body x ;; for_each xs' body
  end.

(** ** Built-ins *)

Definition nl : string := String "010"%char EmptyString.

(** [sys.stdout.write(text)]; [print(text, end=...)] with the empty [end] of
    the streaming loops is this. *)
Definition write (text : string) : M unit :=
  fun s => (Returned tt,
            {| heap := heap s; wire := wire s; stdout := stdout s +:+ text |}).

(** [print(text)]. *)
Definition print (text : string) : M unit := write (text +:+ nl).

(** The list display [[]]: a new, empty list object. *)
Definition new_list : M ref :=
  fun s =>
    let l := fresh (dom (heap s)) in
    (Returned l,
     {| heap := <[l := []]> (heap s); wire := wire s; stdout := stdout s |}).

(** [lst.append(x)]. *)
Definition list_append (l : ref) (x : Message) : M unit :=
  fun s =>
    (Returned tt,
     {| heap := <[l := transcript l s ++ [x]]> (heap s);
        wire := wire s; stdout := stdout s |}).

(** Reading the content of a list, as the SDK does when it serialises the
    [messages] argument. *)
Definition read_list (l : ref) : M (list Message) :=
  fun s => (Returned (transcript l s), s).

Section Client.

(** The module-level [client = OpenAI()]. *)
Variable client : Endpoint.

(** [client.chat.completions.create(...)] without [stream=True]: the call
    is made, and it returns the answer or raises.  [wire] gets one entry for
    the call, however often the SDK transmits the request inside it. *)
Definition chat_completions_create (req : Request) : M Response :=
  fun s =>
    let s' := {| heap := heap s; wire := wire s ++ [req];
                 stdout := stdout s |} in
    match complete client (wire s) req with
    | inl e => (Raised e, s')
    | inr response => (Returned response, s')
    end.

(** [client.chat.completions.create(..., stream=True)]. *)
Definition chat_completions_create_stream (req : Request) : M Stream :=
  fun s =>
    let s' := {| heap := heap s; wire := wire s ++ [req];
                 stdout := stdout s |} in
    match open_stream client (wire s) req with
    | inl e => (Raised e, s')
    | inr st => (Returned st, s')
    end.

(** [for chunk in stream: body(chunk)]. *)
Definition for_stream (st : Stream) (body : Chunk -> M unit) : M unit :=
  for_each (chunks st) body ;;
  match broken st with
  | Some e => raise e
  | None => ret tt
  end.

(** *** [openai_sdk_complete_guide.py] *)

(** The request of [chat_with_context]. *)
Definition context_request (msgs : list Message) : Request :=
  {| model := "gpt-4"; messages := msgs; max_tokens := Some 150%Z;
     stream := false |}.

(** The closure [chat_with_context]; [conversation_history] is the list
    of the enclosing [create_conversation_context]. *)
Definition chat_with_context (conversation_history : ref)
    (user_message : string) : M string :=
  list_append conversation_history
    {| role := user; content := user_message |} ;;
  msgs <- read_list conversation_history ;;
  response <- chat_completions_create (context_request msgs) ;;
  let assistant_message := message_content response in
  list_append conversation_history
    {| role := assistant; content := assistant_message |} ;;
  ret assistant_message.

Definition create_conversation_context : M unit :=
  print (nl +:+ "=== CONVERSATION CONTEXT EXAMPLE ===") ;;
  conversation_history <- new_list ;;
  print "User: Hello, I'm learning Python" ;;
  response1 <- chat_with_context conversation_history
                 "Hello, I'm learning Python" ;;
  print ("Assistant: " +:+ response1) ;;
  print "User: What should I focus on first?" ;;
  response2 <- chat_with_context conversation_history
                 "What should I focus on first?" ;;
  print ("Assistant: " +:+ response2).

(** The body of both streaming loops:
    [if chunk.choices[0].delta.content is not None: print(...)], where the
    [print] has the empty [end]. *)
Definition print_chunk (chunk : Chunk) : M unit :=
  match delta_content chunk with
  | Some text => write text
  | None => ret tt
  end.

Definition streaming_request (prompt : string) : Request :=
  {| model := "gpt-4";
     messages := [{| role := user; content := prompt |}];
     max_tokens := None; stream := true |}.

Definition streaming_example : M unit :=
  print (nl +:+ "=== STREAMING EXAMPLE ===") ;;
  try_except
    (st <- chat_completions_create_stream
             (streaming_request "Write a short poem about coding") ;;
     print "Streaming response:" ;;
     for_stream st print_chunk ;;
     print nl)
    (fun e => print ("Error in streaming: " +:+ exn_text e)).

(** *** [quick_start_examples.py] *)

Definition example_7_streaming : M unit :=
  print (nl +:+ "=== Example 7: Streaming Response ===") ;;
  st <- chat_completions_create_stream
          (streaming_request
             "Write a short story about a detective solving a mystery") ;;
  print "Streaming response:" ;;
  for_stream st print_chunk ;;
  print nl.

End Client.

(** ** A caller that keeps the conversation going *)

(** One call after the other on the same [conversation_history], in the
    order of [texts]; a call that raises is caught by the caller, which goes
    on with the next text.  The results are collected in call order. *)
Fixpoint chat_session (client : Endpoint) (conversation_history : ref)
    (texts : list string) (s : State) : list (Result string) * State :=
  match texts with
  | [] => ([], s)
  | text :: rest =>
      let '(r, s1) := chat_with_context client conversation_history text s in
      let '(rs, s2) := chat_session client conversation_history rest s1 in
      (r :: rs, s2)
  end.

Definition is_returned {A} (r : Result A) : bool :=
  match r with Returned _ => true | Raised _ => false end.

Definition succeeded {A} (rs : list (Result A)) : nat :=
  length (filter (fun r => is_returned r = true) rs).

Definition failed {A} (rs : list (Result A)) : nat :=
  length (filter (fun r => is_returned r = false) rs).

(** What one call leaves in the transcript, and the roles of that. *)
Definition turns (text : string) (r : Result string) : list Message :=
  match r with
  | Returned answer =>
      [ {| role := user; content := text |};
        {| role := assistant; content := answer |} ]
  | Raised _ => [ {| role := user; content := text |} ]
  end.

Definition turn_roles {A} (r : Result A) : list Role :=
  match r with
  | Returned _ => [user; assistant]
  | Raised _ => [user]
  end.

(** The operations of the sources that run against a store of
    conversations. *)
Inductive Operation :=
  | Chat (conversation_history : ref) (user_message : string)
  | CreateConversationContext
  | StreamingExample
  | Example7Streaming.

Definition run_operation (client : Endpoint) (op : Operation) (s : State)
    : State :=
  match op with
  | Chat l text => (chat_with_context client l text s).2
  | CreateConversationContext => (create_conversation_context client s).2
  | StreamingExample => (streaming_example client s).2
  | Example7Streaming => (example_7_streaming client s).2
  end.

Definition run_operations (client : Endpoint) (ops : list Operation)
    (s : State) : State :=
  foldl (fun s op => run_operation client op s) s ops.

(** The text a stream of chunks carries: the fragments that are there, in
    arrival order. *)
Definition fragments (cs : list Chunk) : list string := omap delta_content cs.

Definition joined (texts : list string) : string :=
  foldr String.append EmptyString texts.

(** Every list of [s'] starts with what it held in [s]. *)
Definition grows (s s' : State) : Prop :=
  forall l : ref, transcript l s `prefix_of` transcript l s'.

(** A statement under which lists only grow. *)
Definition appending {A} (m : M A) : Prop := forall s, grows s (m s).2.

(** The two streaming functions side by side: the prompt each sends and the
    heading each prints. *)
Inductive StreamingCall := InGuide | InQuickStart.

Definition streaming_prompt (c : StreamingCall) : string :=
  match c with
  | InGuide => "Write a short poem about coding"
  | InQuickStart => "Write a short story about a detective solving a mystery"
  end.

Definition streaming_heading (c : StreamingCall) : string :=
  match c with
  | InGuide => "=== STREAMING EXAMPLE ==="
  | InQuickStart => "=== Example 7: Streaming Response ==="
  end.

Definition run_streaming (client : Endpoint) (c : StreamingCall) : M unit :=
  match c with
  | InGuide => streaming_example client
  | InQuickStart => example_7_streaming client
  end.

(** ** Operations of the specification that the sources do not have *)

(** Modelled from the spec: [reset] is missing from the sources, which only
    ever create a transcript empty and append to it.  Section 4.1: "Clears
    the transcript to empty.  No remote call."  Here as
    [conversation_history.clear()]. *)
Definition reset (conversation_history : ref) : M unit :=
  fun s =>
    (Returned tt,
     {| heap := <[conversation_history := []]> (heap s);
        wire := wire s; stdout := stdout s |}).

(** Modelled from the spec: [history] is missing from the sources, where
    [conversation_history] never leaves the closure.  Section 4.1: "Returns
    a read-only snapshot (copy) of the current transcript".  Here as
    [return list(conversation_history)]: a new list object with the content
    of the transcript. *)
Definition history (conversation_history : ref) : M ref :=
  fun s =>
    let l := fresh (dom (heap s)) in
    (Returned l,
     {| heap := <[l := transcript conversation_history s]> (heap s);
        wire := wire s; stdout := stdout s |}).

(** [lst[:] = items]: the list object keeps its identity and gets a new
    content; every in-place change of a list is of this form. *)
Definition list_assign (l : ref) (items : list Message) : M unit :=
  fun s =>
    (Returned tt,
     {| heap := <[l := items]> (heap s); wire := wire s;
        stdout := stdout s |}).

(** Modelled from the spec: the configuration of section 3, which the
    sources do not have (every call spells out its keyword arguments).  The
    two float options are kept as rationals; nothing computes with them. *)
Record GenerationConfig := {
  cfg_model : string;
  cfg_max_output_tokens : Z;
  cfg_temperature : Qc;
  cfg_top_p : Qc;
  cfg_stream : bool
}.

(** Modelled from the spec: a "partial GenerationConfig", each option set
    or left out. *)
Record ConfigOverride := {
  ov_model : option string;
  ov_max_output_tokens : option Z;
  ov_temperature : option Qc;
  ov_top_p : option Qc;
  ov_stream : option bool
}.

(** Modelled from the spec: "override merged over defaults - override wins
    per-field". *)
Definition spec_resolve (ov : ConfigOverride) (d : GenerationConfig)
    : GenerationConfig :=
  {| cfg_model := default (cfg_model d) (ov_model ov);
     cfg_max_output_tokens :=
       default (cfg_max_output_tokens d) (ov_max_output_tokens ov);
     cfg_temperature := default (cfg_temperature d) (ov_temperature ov);
     cfg_top_p := default (cfg_top_p d) (ov_top_p ov);
     cfg_stream := default (cfg_stream d) (ov_stream ov) |}.

(** A request carries a configuration when the parameters it has are the
    configuration's. *)
Definition carries (req : Request) (cfg : GenerationConfig) : Prop :=
  model req = cfg_model cfg /\
  max_tokens req = Some (cfg_max_output_tokens cfg) /\
  stream req = cfg_stream cfg.

(** ** [quick_start_examples.py]: the examples and their runner *)

(** [text * n]. *)
Fixpoint string_times (text : string) (n : nat) : string :=
  match n with
  | O => EmptyString
  | S n' => text +:+ string_times text n'
  end.

Section QuickStart.

Variable client : Endpoint.

Definition example_2_conversation : M unit :=
  print (nl +:+ "=== Example 2: Conversation ===") ;;
  let messages :=
    [ {| role := system; content := "You are a helpful coding tutor." |};
      {| role := user; content := "I want to learn Python" |};
      {| role := assistant;
         content := "Great! Python is an excellent language to learn. What would you like to start with - basics, data structures, or something specific?" |};
      {| role := user;
         content := "What are the most important data structures?" |} ] in
  response <- chat_completions_create client
                {| model := "gpt-4"; messages := messages;
                   max_tokens := Some 300%Z; stream := false |} ;;
  print (message_content response).

Definition example_3_code_generation : M unit :=
  print (nl +:+ "=== Example 3: Code Generation ===") ;;
  response <- chat_completions_create client
                {| model := "gpt-4";
                   messages :=
                     [ {| role := user;
                          content := "Write a Python function to sort a list of dictionaries by a specific key, and explain how it works" |} ];
                   max_tokens := Some 400%Z; stream := false |} ;;
  print (message_content response).

(** The examples that read more of an answer than its text, or use other
    parts of the API (token counts, embeddings, function calls, moderation,
    the list of models), are not modelled; each stands as an arbitrary
    statement, so that what is proved of [run_all_examples] holds whatever
    they do. *)
Variable example_1_simple_chat : M unit.
Variable example_4_embeddings : M unit.
Variable example_8_function_calling : M unit.
Variable example_9_moderation : M unit.
Variable example_10_models_info : M unit.

Definition run_all_examples : M unit :=
  print "OpenAI SDK Quick Start Examples" ;;
  print (string_times "=" 40) ;;
  try_except
    (example_1_simple_chat ;;
     example_2_conversation ;;
     example_3_code_generation ;;
     example_4_embeddings ;;
     example_7_streaming client ;;
     example_8_function_calling ;;
     example_9_moderation ;;
     example_10_models_info ;;
     print (nl +:+ string_times "=" 40) ;;
     print "All examples completed successfully!")
    (fun e =>
       print ("Error running examples: " +:+ exn_text e) ;;
       print "Make sure you have set your OPENAI_API_KEY environment variable").

(** The examples [run_all_examples] runs, in its order. *)
Definition examples_run : list (M unit) :=
  [ example_1_simple_chat; example_2_conversation; example_3_code_generation;
    example_4_embeddings; example_7_streaming client;
    example_8_function_calling; example_9_moderation;
    example_10_models_info ].

End QuickStart.

(** The state once [run_all_examples] has printed its two heading lines. *)
Definition after_heading (s : State) : State :=
  {| heap := heap s; wire := wire s;
     stdout :=
       (stdout s +:+ ("OpenAI SDK Quick Start Examples" +:+ nl)) +:+
       (string_times "=" 40 +:+ nl) |}.

(** ** The examples that use files, speech, assistants and the list of models

    These examples keep nothing in lists; they print, make remote calls
    other than chat completions, and read and write files in the working
    directory.  Their state is a [World]: what has been printed, the files
    of the working directory by name, and the remote calls made so far, in
    order.  The remote side is a [Service], whose answers may depend on all
    the calls made before.  Opening a file for writing and removing a file
    that exists are taken to succeed. *)

(** A file object of the service, as far as the code reads it: [.id],
    [.filename], [.bytes]. *)
Record FileObject := { file_id : string; filename : string; file_bytes : Z }.

(** A model object, as far as the code reads it: [.id], [.created],
    [.owned_by]. *)
Record ModelInfo := { model_id : string; created : Z; owned_by : string }.

(** The remote calls of these examples, with the arguments they pass.  A
    file argument is the name and the content of the open file; [tools] is
    the list of the ["type"] entries. *)
Inductive Call :=
  | FilesCreate (name content purpose : string)
  | FilesList
  | FilesRetrieve (id : string)
  | FilesDelete (id : string)
  | ModelsList
  | ModelsRetrieve (id : string)
  | AssistantsCreate (name instructions model_name : string)
      (tools : list string)
  | ThreadsCreate
  | ThreadMessagesCreate (thread_id message_role message_text : string)
  | ThreadRunsCreate (thread_id assistant_id : string)
  | AssistantsDelete (id : string)
  | SpeechCreate (model_name voice input : string).

Global Instance Call_eq_dec : EqDecision Call.
Proof. solve_decision. Defined.

(** The answers of the service: for each method, what it returns or raises
    after the calls made before.  Of an assistant, a thread and a run the
    code reads the [.id] only; of a speech answer, [.content]. *)
Record Service := {
  files_create : list Call -> string -> string -> string -> Exn + FileObject;
  files_list : list Call -> Exn + list FileObject;
  files_retrieve : list Call -> string -> Exn + FileObject;
  files_delete : list Call -> string -> Exn + unit;
  models_list : list Call -> Exn + list ModelInfo;
  models_retrieve : list Call -> string -> Exn + ModelInfo;
  assistants_create :
    list Call -> string -> string -> string -> list string -> Exn + string;
  threads_create : list Call -> Exn + string;
  thread_messages_create :
    list Call -> string -> string -> string -> Exn + unit;
  thread_runs_create : list Call -> string -> string -> Exn + string;
  assistants_delete : list Call -> string -> Exn + unit;
  speech_create : list Call -> string -> string -> string -> Exn + string
}.

Record World := {
  out : string;
  disk : gmap string string;
  calls : list Call
}.

Definition W (A : Type) : Type := World -> Result A * World.

Definition wret {A} (a : A) : W A := fun w => (Returned a, w).

Definition wbind {A B} (m : W A) (k : A -> W B) : W B :=
  fun w =>
    match m w with
    | (Returned a, w') => k a w'
    | (Raised e, w') => (Raised e, w')
    end.

Definition wraise {A} (e : Exn) : W A := fun w => (Raised e, w).

(** [try: body except Exception as e: handler(e)]. *)
Definition wtry_except {A} (body : W A) (handler : Exn -> W A) : W A :=
  fun w =>
    match body w with
    | (Returned a, w') => (Returned a, w')
    | (Raised e, w') => handler e w'
    end.

(** [try: body except Exception as e: handler(e) finally: cleanup].  The
    cleanup runs on every way out; when it raises, its exception is the one
    that leaves the statement. *)
Definition wtry_except_finally {A} (body : W A) (handler : Exn -> W A)
    (cleanup : W unit) : W A :=
  fun w =>
    match wtry_except body handler w with
    | (r, w1) =>
        match cleanup w1 with
        | (Returned _, w2) => (r, w2)
        | (Raised e, w2) => (Raised e, w2)
        end
    end.

Declare Scope world_scope.
Delimit Scope world_scope with world.
Notation "x <- m ;; k" := (wbind m (fun x => k))
  (at level 100, m at next level, right associativity) : world_scope.
Notation "m ;; k" := (wbind m (fun _ => k))
  (at level 100, right associativity) : world_scope.

(** [for x in xs: body(x)]. *)
Fixpoint wfor_each {A} (xs : list A) (body : A -> W unit) : W unit :=
  match xs with
  | [] => wret tt
  | x :: xs' => wbind (body x) (fun _ => wfor_each xs' body)
  end.

(** [print(text)]. *)
Definition wprint (text : string) : W unit :=
  fun w =>
    (Returned tt,
     {| out := out w +:+ (text +:+ nl); disk := disk w; calls := calls w |}).

(** [with open(path, "w") as f: f.write(content)], and the same with
    ["wb"]: the file is created or replaced. *)
Definition write_file (path content : string) : W unit :=
  fun w =>
    (Returned tt,
     {| out := out w; disk := <[path := content]> (disk w);
        calls := calls w |}).

Definition file_not_found (path : string) : Exn :=
  {| exn_class := Exception;
     exn_text := "[Errno 2] No such file or directory: '" +:+ path +:+ "'" |}.

(** [open(path, "rb")], as far as an upload reads the file: its content. *)
Definition open_rb (path : string) : W string :=
  fun w =>
    match disk w !! path with
    | Some content => (Returned content, w)
    | None => (Raised (file_not_found path), w)
    end.

(** [os.path.exists(path)]. *)
Definition os_path_exists (path : string) : W bool :=
  fun w => (Returned (bool_decide (is_Some (disk w !! path))), w).

(** [os.remove(path)]. *)
Definition os_remove (path : string) : W unit :=
  fun w =>
    match disk w !! path with
    | Some _ =>
        (Returned tt,
         {| out := out w; disk := delete path (disk w); calls := calls w |})
    | None => (Raised (file_not_found path), w)
    end.

(** A remote call: it is made, and the service answers or raises. *)
Definition remote {A} (call : Call) (answer : list Call -> Exn + A) : W A :=
  fun w =>
    let w' := {| out := out w; disk := disk w; calls := calls w ++ [call] |} in
    match answer (calls w) with
    | inl e => (Raised e, w')
    | inr a => (Returned a, w')
    end.

Section Guide.

Local Open Scope world_scope.

(** [self.client] of [OpenAISDKGuide]. *)
Variable service : Service.

Definition text_to_speech_example : W unit :=
  wprint (nl +:+ "=== TEXT TO SPEECH ===") ;;
  wtry_except
    (let input := "Hello, this is a test of OpenAI's text-to-speech system." in
     content <- remote (SpeechCreate "tts-1" "alloy" input)
                  (fun sent => speech_create service sent "tts-1" "alloy" input) ;;
     write_file "output_speech.mp3" content ;;
     wprint "Audio file saved as 'output_speech.mp3'")
    (fun e => wprint ("Error in text-to-speech: " +:+ exn_text e)).

Definition file_operations_example : W unit :=
  wprint (nl +:+ "=== FILE OPERATIONS ===") ;;
  let sample_content := "This is a sample file for OpenAI file operations." in
  write_file "sample_file.txt" sample_content ;;
  wtry_except_finally
    (f <- open_rb "sample_file.txt" ;;
     uploaded_file <-
       remote (FilesCreate "sample_file.txt" f "assistants")
         (fun sent => files_create service sent "sample_file.txt" f "assistants") ;;
     wprint ("File uploaded with ID: " +:+ file_id uploaded_file) ;;
     files <- remote FilesList (files_list service) ;;
     wprint ("Total files: " +:+ pretty (length files)) ;;
     file_details <-
       remote (FilesRetrieve (file_id uploaded_file))
         (fun sent => files_retrieve service sent (file_id uploaded_file)) ;;
     wprint ("File name: " +:+ filename file_details) ;;
     wprint ("File size: " +:+ pretty (file_bytes file_details) +:+ " bytes") ;;
     remote (FilesDelete (file_id uploaded_file))
       (fun sent => files_delete service sent (file_id uploaded_file)) ;;
     wprint "File deleted successfully")
    (fun e => wprint ("Error in file operations: " +:+ exn_text e))
    (there <- os_path_exists "sample_file.txt" ;;
     if there then os_remove "sample_file.txt" else wret tt).

Definition assistants_example : W unit :=
  wprint (nl +:+ "=== ASSISTANTS API ===") ;;
  wtry_except
    (let name := "Math Tutor" in
     let instructions :=
       "You are a helpful math tutor. Explain concepts clearly and provide examples." in
     assistant <-
       remote (AssistantsCreate name instructions "gpt-4" ["code_interpreter"])
         (fun sent =>
            assistants_create service sent name instructions "gpt-4"
              ["code_interpreter"]) ;;
     wprint ("Assistant created with ID: " +:+ assistant) ;;
     thread <- remote ThreadsCreate (threads_create service) ;;
     wprint ("Thread created with ID: " +:+ thread) ;;
     let text := "Explain calculus derivatives with examples" in
     remote (ThreadMessagesCreate thread "user" text)
       (fun sent => thread_messages_create service sent thread "user" text) ;;
     run <- remote (ThreadRunsCreate thread assistant)
              (fun sent => thread_runs_create service sent thread assistant) ;;
     wprint ("Run started with ID: " +:+ run) ;;
     wprint "Note: In a real application, you would poll for completion" ;;
     remote (AssistantsDelete assistant)
       (fun sent => assistants_delete service sent assistant) ;;
     wprint "Assistant deleted")
    (fun e => wprint ("Error in assistants: " +:+ exn_text e)).

(** The loop body of [models_example]:
    [if model.id in popular_models: print(...)]. *)
Definition guide_popular_models : list string :=
  ["gpt-4"; "gpt-3.5-turbo"; "text-embedding-3-small"; "dall-e-3"].

Definition print_if_popular (m : ModelInfo) : W unit :=
  if bool_decide (model_id m ∈ guide_popular_models)
  then wprint ("Model: " +:+ model_id m +:+ " - Created: " +:+
               pretty (created m))
  else wret tt.

Definition models_example : W unit :=
  wprint (nl +:+ "=== MODELS API ===") ;;
  wtry_except
    (models <- remote ModelsList (models_list service) ;;
     wprint ("Total models available: " +:+ pretty (length models)) ;;
     wfor_each models print_if_popular ;;
     gpt4_model <- remote (ModelsRetrieve "gpt-4")
                     (fun sent => models_retrieve service sent "gpt-4") ;;
     wprint (nl +:+ "GPT-4 details:") ;;
     wprint ("ID: " +:+ model_id gpt4_model) ;;
     wprint ("Owned by: " +:+ owned_by gpt4_model) ;;
     wprint ("Created: " +:+ pretty (created gpt4_model)))
    (fun e => wprint ("Error in models API: " +:+ exn_text e)).

(** *** [quick_start_examples.py] *)

Definition example_6_text_to_speech : W unit :=
  wprint (nl +:+ "=== Example 6: Text to Speech ===") ;;
  let input :=
    "Hello! This is a test of OpenAI's text-to-speech system. It sounds quite natural!" in
  content <- remote (SpeechCreate "tts-1" "alloy" input)
               (fun sent => speech_create service sent "tts-1" "alloy" input) ;;
  write_file "speech_output.mp3" content ;;
  wprint "Audio saved as 'speech_output.mp3'".

Definition quick_start_popular_models : list string :=
  ["gpt-4"; "gpt-3.5-turbo"; "text-embedding-3-small"; "dall-e-3"; "whisper-1"].

(** The loop body of [example_10_models_info]. *)
Definition print_model_info (m : ModelInfo) : W unit :=
  if bool_decide (model_id m ∈ quick_start_popular_models)
  then
    wprint ("Model: " +:+ model_id m) ;;
    wprint ("  Created: " +:+ pretty (created m)) ;;
    wprint ("  Owned by: " +:+ owned_by m) ;;
    wprint EmptyString
  else wret tt.

Definition example_10_models_info : W unit :=
  wprint (nl +:+ "=== Example 10: Available Models ===") ;;
  models <- remote ModelsList (models_list service) ;;
  wfor_each models print_model_info.

End Guide.

(** ** Sample endpoints and states *)

Definition empty_state : State :=
  {| heap := ∅; wire := []; stdout := EmptyString |}.

(** An endpoint that answers every request with the same text, and streams
    the given chunks to the end. *)
Definition answering (text : string) (cs : list Chunk) : Endpoint :=
  {| complete := fun _ _ => inr {| message_content := text |};
     open_stream := fun _ _ => inr {| chunks := cs; broken := None |} |}.

Definition timeout_error : Exn :=
  {| exn_class := APITimeoutError; exn_text := "Request timed out." |}.

(** An endpoint that cannot be reached. *)
Definition unreachable : Endpoint :=
  {| complete := fun _ _ => inl timeout_error;
     open_stream := fun _ _ => inl timeout_error |}.

(** An endpoint that times out on the first request it gets and answers the
    later ones. *)
Definition flaky (text : string) : Endpoint :=
  {| complete := fun sent _ =>
       match sent with
       | [] => inl timeout_error
       | _ :: _ => inr {| message_content := text |}
       end;
     open_stream := fun _ _ => inl timeout_error |}.

Definition hello_chunks : list Chunk :=
  [ {| delta_content := Some "Hel" |};
    {| delta_content := None |};
    {| delta_content := Some "lo" |} ].

(** A store with one conversation, already one exchange long. *)
Definition one_conversation : State :=
  {| heap := {[ 1%positive :=
                  [ {| role := user; content := "Hi" |};
                    {| role := assistant; content := "Hello!" |} ] ]};
     wire := []; stdout := EmptyString |}.

(** An endpoint that answers the first request it gets and times out on the
    later ones. *)
Definition answering_once (text : string) : Endpoint :=
  {| complete := fun sent _ =>
       match sent with
       | [] => inr {| message_content := text |}
       | _ :: _ => inl timeout_error
       end;
     open_stream := fun _ _ => inl timeout_error |}.

Definition connection_error : Exn :=
  {| exn_class := Exception; exn_text := "Connection reset." |}.

(** An endpoint whose stream delivers the given chunks and then breaks. *)
Definition breaking (cs : list Chunk) : Endpoint :=
  {| complete := fun _ _ => inl connection_error;
     open_stream := fun _ _ =>
       inr {| chunks := cs; broken := Some connection_error |} |}.

(** An endpoint that answers every request and whose stream delivers the
    given chunks and then breaks. *)
Definition answering_then_breaking (text : string) (cs : list Chunk)
    : Endpoint :=
  {| complete := fun _ _ => inr {| message_content := text |};
     open_stream := fun _ _ =>
       inr {| chunks := cs; broken := Some connection_error |} |}.

Definition empty_world : World :=
  {| out := EmptyString; disk := ∅; calls := [] |}.

(** A working directory that already has files, one of them with the name
    the file example uses. *)
Definition used_world : World :=
  {| out := EmptyString;
     disk := {[ "notes.txt" := "keep me";
                "sample_file.txt" := "an older file of the user" ]};
     calls := [] |}.

Definition sample_file : FileObject :=
  {| file_id := "file-1"; filename := "sample_file.txt"; file_bytes := 49 |}.

Definition sample_models : list ModelInfo :=
  [ {| model_id := "gpt-4"; created := 1687882411; owned_by := "openai" |};
    {| model_id := "davinci-002"; created := 1692634301;
       owned_by := "system" |};
    {| model_id := "whisper-1"; created := 1677532384;
       owned_by := "openai-internal" |};
    {| model_id := "dall-e-3"; created := 1698785189; owned_by := "system" |} ].

(** A service that answers every call as long as fewer than [n] calls have
    been made, and times out from then on. *)
Definition answering_until (n : nat) : Service :=
  let up {A} (sent : list Call) (a : A) : Exn + A :=
    if decide (length sent < n) then inr a else inl timeout_error in
  {| files_create := fun sent _ _ _ => up sent sample_file;
     files_list := fun sent => up sent [sample_file];
     files_retrieve := fun sent _ => up sent sample_file;
     files_delete := fun sent _ => up sent tt;
     models_list := fun sent => up sent sample_models;
     models_retrieve := fun sent _ =>
       up sent {| model_id := "gpt-4"; created := 1687882411;
                  owned_by := "openai" |};
     assistants_create := fun sent _ _ _ _ => up sent "asst-1";
     threads_create := fun sent => up sent "thread-1";
     thread_messages_create := fun sent _ _ _ => up sent tt;
     thread_runs_create := fun sent _ _ => up sent "run-1";
     assistants_delete := fun sent _ => up sent tt;
     speech_create := fun sent _ _ _ => up sent "some audio" |}.

(** ** Inside a call of [create]: transmissions and re-sending

    The sources build their client as [client = OpenAI()], with no
    [max_retries] argument, so a call of [create] runs under the retry
    policy the SDK has by default.  That policy is not in the sources; the
    number of retries and the choice of the failures that are tried again
    are parameters here.  The SDK's defaults are two retries, and a request
    that timed out is among those it sends again. *)

(** The network below the SDK: what one transmission of a request brings
    back, after the transmissions made before. *)
Record Transport := {
  post : list Request -> Request -> Exn + Response;
  post_stream : list Request -> Request -> Exn + Stream
}.

(** One call of [create]: the request is transmitted; when that fails with
    a failure the policy tries again and retries are left, it is transmitted
    again.  The outcome of the call is the answer, or the failure of the
    last transmission; the second component is the log of transmissions. *)
Fixpoint transmit {A} (send : list Request -> Request -> Exn + A)
    (should_retry : Exn -> bool) (retries : nat) (posted : list Request)
    (req : Request) : (Exn + A) * list Request :=
  match send posted req with
  | inr answer => (inr answer, posted ++ [req])
  | inl e =>
      match retries with
      | S retries' =>
          if should_retry e
          then transmit send should_retry retries' (posted ++ [req]) req
          else (inl e, posted ++ [req])
      | O => (inl e, posted ++ [req])
      end
  end.

(** The transmissions that a run of calls has made. *)
Definition posted_after (t : Transport) (should_retry : Exn -> bool)
    (retries : nat) (sent : list Request) : list Request :=
  foldl
    (fun posted req =>
       if stream req
       then (transmit (post_stream t) should_retry retries posted req).2
       else (transmit (post t) should_retry retries posted req).2)
    [] sent.

(** The client over a transport: the [Endpoint] the code meets. *)
Definition sdk_client (t : Transport) (should_retry : Exn -> bool)
    (retries : nat) : Endpoint :=
  {| complete := fun sent req =>
       (transmit (post t) should_retry retries
          (posted_after t should_retry retries sent) req).1;
     open_stream := fun sent req =>
       (transmit (post_stream t) should_retry retries
          (posted_after t should_retry retries sent) req).1 |}.

(** A policy that tries timeouts again, as the SDK's does. *)
Definition retry_timeouts (e : Exn) : bool :=
  match exn_class e with
  | APITimeoutError => true
  | _ => false
  end.

(** A network on which the first transmission times out and the later ones
    are answered. *)
Definition dropping_first (text : string) : Transport :=
  {| post := fun posted _ =>
       match posted with
       | [] => inl timeout_error
       | _ :: _ => inr {| message_content := text |}
       end;
     post_stream := fun _ _ => inl timeout_error |}.

(** A network on which every transmission times out. *)
Definition dead_network : Transport :=
  {| post := fun _ _ => inl timeout_error;
     post_stream := fun _ _ => inl timeout_error |}.

(** ** Abbreviations for the statements about the examples *)

(** The two user messages of [create_conversation_context]. *)
Definition first_user_turn : Message :=
  {| role := user; content := "Hello, I'm learning Python" |}.

Definition second_user_turn : Message :=
  {| role := user; content := "What should I focus on first?" |}.

Definition assistant_turn (response : Response) : Message :=
  {| role := assistant; content := message_content response |}.

(** The line [models_example] prints for a model of its list, and the
    lines [example_10_models_info] prints for one of its. *)
Definition popular_line (m : ModelInfo) : string :=
  ("Model: " +:+ model_id m +:+ " - Created: " +:+ pretty (created m)) +:+ nl.

Definition model_card (m : ModelInfo) : string :=
  (((("Model: " +:+ model_id m) +:+ nl) +:+
    (("  Created: " +:+ pretty (created m)) +:+ nl)) +:+
   (("  Owned by: " +:+ owned_by m) +:+ nl)) +:+
  (EmptyString +:+ nl).

(** The second request has all the messages of the first and more. *)
Definition context_grows (r1 r2 : Request) : Prop :=
  messages r1 `prefix_of` messages r2 /\
  length (messages r1) < length (messages r2).

(** ** The monad and the built-ins *)

Lemma transcript_insert_eq l items h w o :
  transcript l {| heap := <[l := items]> h; wire := w; stdout := o |} = items.
Proof. unfold transcript. simpl. apply lookup_total_insert_eq. Qed.

Lemma transcript_insert_ne l l' items h w o :
  l <> l' ->
  transcript l' {| heap := <[l := items]> h; wire := w; stdout := o |} =
  transcript l' {| heap := h; wire := w; stdout := o |}.
Proof. intros Hne. unfold transcript. simpl. by apply lookup_total_insert_ne. Qed.

Lemma fresh_not_allocated (h : gmap positive (list Message)) l :
  is_Some (h !! l) -> fresh (dom h) <> l.
Proof.
  intros Hl Heq. apply elem_of_dom in Hl. rewrite <- Heq in Hl.
  exact (is_fresh (dom h) Hl).
Qed.

(** ** [chat_with_context], step by step *)

Section ChatWithContext.

Variable client : Endpoint.

(** The whole effect of one call, by what the endpoint does with the
    request. *)
Lemma chat_with_context_run l text s :
  chat_with_context client l text s =
  let msgs := transcript l s ++ [ {| role := user; content := text |} ] in
  let req := context_request msgs in
  match complete client (wire s) req with
  | inl e =>
      (Raised e,
       {| heap := <[l := msgs]> (heap s); wire := wire s ++ [req];
          stdout := stdout s |})
  | inr response =>
      (Returned (message_content response),
       {| heap := <[l := msgs ++ [ {| role := assistant;
                                      content := message_content response |} ]]>
                    (heap s);
          wire := wire s ++ [req]; stdout := stdout s |})
  end.
Proof.
  unfold chat_with_context, bind, list_append, read_list,
    chat_completions_create, ret.
  cbn [heap wire stdout]. rewrite !transcript_insert_eq.
  destruct (complete client (wire s) _) as [e | response]; [reflexivity |].
  cbn [heap wire stdout]. rewrite transcript_insert_eq.
  by rewrite insert_insert_eq.
Qed.

Lemma chat_with_context_transcript l text s :
  transcript l (chat_with_context client l text s).2 =
  transcript l s ++ turns text (chat_with_context client l text s).1.
Proof.
  rewrite chat_with_context_run. cbv zeta.
  destruct (complete client (wire s) _) as [e | response]; cbn [fst snd turns];
    rewrite transcript_insert_eq; [reflexivity |].
  by rewrite <- app_assoc.
Qed.

Lemma chat_with_context_other l l' text s :
  l <> l' ->
  transcript l' (chat_with_context client l text s).2 = transcript l' s.
Proof.
  intros Hne. rewrite chat_with_context_run. cbv zeta.
  destruct (complete client (wire s) _) as [e | response]; cbn [snd];
    by rewrite transcript_insert_ne.
Qed.

End ChatWithContext.

(** ** Sequences of calls *)

Lemma turns_roles text (r : Result string) :
  role <$> turns text r = turn_roles r.
Proof. by destruct r. Qed.

Lemma turns_length text (r : Result string) :
  length (turns text r) = if is_returned r then 2 else 1.
Proof. by destruct r. Qed.

Lemma succeeded_cons {A} (r : Result A) rs :
  succeeded (r :: rs) = (if is_returned r then 1 else 0) + succeeded rs.
Proof. unfold succeeded. rewrite filter_cons. by destruct r. Qed.

Lemma failed_cons {A} (r : Result A) rs :
  failed (r :: rs) = (if is_returned r then 0 else 1) + failed rs.
Proof. unfold failed. rewrite filter_cons. by destruct r. Qed.

Lemma succeeded_failed {A} (rs : list (Result A)) :
  succeeded rs + failed rs = length rs.
Proof.
  induction rs as [| r rs IH]; [reflexivity |].
  rewrite succeeded_cons, failed_cons. destruct r; simpl; lia.
Qed.

Lemma session_turns_cons text rest (r : Result string) rs :
  mjoin (zip_with turns (text :: rest) (r :: rs)) =
  turns text r ++ mjoin (zip_with turns rest rs).
Proof. reflexivity. Qed.

Lemma turn_roles_cons {A} (r : Result A) rs :
  mjoin (turn_roles <$> r :: rs) = turn_roles r ++ mjoin (turn_roles <$> rs).
Proof. reflexivity. Qed.

Section Session.

Variable client : Endpoint.
Variable l : ref.

Lemma chat_session_results texts s :
  length (chat_session client l texts s).1 = length texts.
Proof.
  revert s. induction texts as [| text rest IH]; intros s; [reflexivity |].
  simpl. destruct (chat_with_context client l text s) as [r s1].
  specialize (IH s1). destruct (chat_session client l rest s1) as [rs s2].
  simpl in *. by rewrite IH.
Qed.

Lemma chat_session_transcript texts s :
  transcript l (chat_session client l texts s).2 =
  transcript l s ++
    mjoin (zip_with turns texts (chat_session client l texts s).1).
Proof.
  revert s. induction texts as [| text rest IH]; intros s.
  - simpl. by rewrite app_nil_r.
  - simpl. pose proof (chat_with_context_transcript client l text s) as H1.
    destruct (chat_with_context client l text s) as [r s1].
    specialize (IH s1). destruct (chat_session client l rest s1) as [rs s2].
    simpl in *. rewrite IH, H1. by rewrite <- app_assoc.
Qed.

Lemma session_turns_length texts (rs : list (Result string)) :
  length rs = length texts ->
  length (mjoin (zip_with turns texts rs)) = 2 * succeeded rs + failed rs.
Proof.
  revert rs. induction texts as [| text rest IH]; intros [| r rs] Hlen;
    try discriminate; [reflexivity |].
  simpl in Hlen. injection Hlen as Hlen.
  rewrite session_turns_cons, length_app, turns_length.
  rewrite (IH rs Hlen), succeeded_cons, failed_cons.
  destruct r; simpl; lia.
Qed.

Lemma session_turns_roles texts (rs : list (Result string)) :
  length rs = length texts ->
  role <$> mjoin (zip_with turns texts rs) = mjoin (turn_roles <$> rs).
Proof.
  revert rs. induction texts as [| text rest IH]; intros [| r rs] Hlen;
    try discriminate; [reflexivity |].
  simpl in Hlen. injection Hlen as Hlen.
  rewrite session_turns_cons, turn_roles_cons, fmap_app, turns_roles.
  f_equal. exact (IH rs Hlen).
Qed.

Lemma chat_session_from s texts :
  let '(rs, s') := chat_session client l texts s in
  length rs = length texts /\
  transcript l s' = transcript l s ++ mjoin (zip_with turns texts rs) /\
  length (transcript l s') =
    length (transcript l s) + (2 * succeeded rs + failed rs) /\
  role <$> drop (length (transcript l s)) (transcript l s') =
    mjoin (turn_roles <$> rs).
Proof.
  pose proof (chat_session_results texts s) as Hlen.
  pose proof (chat_session_transcript texts s) as Htr.
  destruct (chat_session client l texts s) as [rs s']. simpl in *.
  split; [exact Hlen |]. split; [exact Htr |]. rewrite Htr. split.
  - by rewrite length_app, session_turns_length.
  - by rewrite drop_app_length, session_turns_roles.
Qed.

End Session.

(** C1.  Whatever the endpoint does, a run of calls on one conversation
    leaves two messages per call that returned and one per call that raised:
    the transcript grows by exactly the turns of the calls, in call order, a
    user turn followed by the assistant turn for a call that returned and the
    user turn alone for one that raised.  On a conversation that starts
    empty, the length of the transcript is twice the number of calls that
    returned plus the number that raised, and its roles are those turns'. *)
Theorem history_counts_turns (client : Endpoint) (l : ref)
    (texts : list string) (s : State) :
  (let '(rs, s') := chat_session client l texts s in
   length rs = length texts /\
   transcript l s' = transcript l s ++ mjoin (zip_with turns texts rs) /\
   length (transcript l s') =
     length (transcript l s) + (2 * succeeded rs + failed rs)) /\
  (let '(r0, s0) := new_list s in
   match r0 with
   | Returned l0 =>
       let '(rs, s') := chat_session client l0 texts s0 in
       length (transcript l0 s') = 2 * succeeded rs + failed rs /\
       transcript l0 s' = mjoin (zip_with turns texts rs) /\
       role <$> transcript l0 s' = mjoin (turn_roles <$> rs)
   | Raised _ => False
   end).
Proof.
  split.
  - pose proof (chat_session_from client l s texts) as H.
    destruct (chat_session client l texts s) as [rs s']. tauto.
  - unfold new_list. set (l0 := fresh (dom (heap s))).
    set (s0 := {| heap := <[l0 := []]> (heap s); wire := wire s;
                  stdout := stdout s |}).
    assert (H0 : transcript l0 s0 = []) by apply transcript_insert_eq.
    pose proof (chat_session_from client l0 s0 texts) as H.
    destruct (chat_session client l0 texts s0) as [rs s'].
    rewrite H0 in H. simpl in H. destruct H as (Hlen & Htr & Hn & Hr).
    rewrite drop_0 in Hr. done.
Qed.

(** ** One call: what goes out and what comes back *)

(** C5, as amended.  Every call sends exactly one request, and that request
    holds the whole transcript - the messages that were there, in order,
    followed by the new user turn - together with the parameters written in
    the call: model ["gpt-4"], [max_tokens=150], no streaming.  Nothing of
    the caller's can change these parameters. *)
Theorem request_carries_transcript (client : Endpoint) (l : ref)
    (text : string) (s : State) :
  wire (chat_with_context client l text s).2 =
  wire s ++
    [ {| model := "gpt-4";
         messages := transcript l s ++ [ {| role := user; content := text |} ];
         max_tokens := Some 150%Z;
         stream := false |} ].
Proof.
  rewrite chat_with_context_run. cbv zeta.
  by destruct (complete client (wire s) _).
Qed.

(** C5 as stated fails: the request that goes out has [max_tokens=150]
    whatever the defaults are, so it does not carry a configuration resolved
    from an override that sets another cap. *)
Lemma override_is_not_merged :
  wire (chat_with_context (answering "Hello!" []) 1 "Hi" empty_state).2 =
    [ context_request [ {| role := user; content := "Hi" |} ] ] /\
  forall d : GenerationConfig,
    ~ carries (context_request [ {| role := user; content := "Hi" |} ])
        (spec_resolve
           {| ov_model := None; ov_max_output_tokens := Some 10%Z;
              ov_temperature := None; ov_top_p := None; ov_stream := None |}
           d).
Proof.
  split.
  - by rewrite chat_with_context_run.
  - intros d (_ & Hcap & _). discriminate Hcap.
Qed.

(** C2, as amended.  The empty text is sent like any other: the call appends
    the user turn with the empty content, sends one request holding the
    transcript with that turn at its end, and ends as the endpoint decides -
    with the answer, which is appended as the assistant turn, or with the
    endpoint's exception. *)
Theorem empty_text_goes_out (client : Endpoint) (l : ref) (s : State) :
  let '(r, s') := chat_with_context client l EmptyString s in
  let msgs :=
    transcript l s ++ [ {| role := user; content := EmptyString |} ] in
  wire s' = wire s ++ [ context_request msgs ] /\
  transcript l s' =
    msgs ++ match r with
            | Returned answer => [ {| role := assistant; content := answer |} ]
            | Raised _ => []
            end /\
  r = match complete client (wire s) (context_request msgs) with
      | inl e => Raised e
      | inr response => Returned (message_content response)
      end.
Proof.
  rewrite chat_with_context_run. cbv zeta.
  destruct (complete client (wire s) _) as [e | response];
    rewrite transcript_insert_eq; [by rewrite app_nil_r | done].
Qed.

(** C2 as stated fails: with an endpoint that answers, the call with the
    empty text returns, a request has gone out, and the transcript has two
    more messages. *)
Lemma empty_text_is_not_refused :
  let '(r, s') :=
    chat_with_context (answering "Hello!" []) 1 EmptyString empty_state in
  r = Returned "Hello!" /\
  ~ ((exists e, r = Raised e) /\
     wire s' = wire empty_state /\
     transcript 1 s' = transcript 1 empty_state).
Proof.
  rewrite chat_with_context_run. cbv zeta. cbn [complete answering].
  split; [reflexivity |]. intros (_ & Hwire & _). discriminate Hwire.
Qed.

(** C4, as amended.  When the call of [create] raises - after whatever
    re-sending the SDK has done inside it - [chat_with_context] lets that
    very exception through to its caller; the user turn is in the transcript
    and nothing follows it; and [chat_with_context] has made that one call
    of [create] and no other: it has no retry of its own. *)
Theorem remote_failure_keeps_user_turn (client : Endpoint) (l : ref)
    (text : string) (s : State) (e : Exn) :
  complete client (wire s)
    (context_request
       (transcript l s ++ [ {| role := user; content := text |} ])) = inl e ->
  (chat_with_context client l text s).1 = Raised e /\
  transcript l (chat_with_context client l text s).2 =
    transcript l s ++ [ {| role := user; content := text |} ] /\
  wire (chat_with_context client l text s).2 =
    wire s ++
      [ context_request
          (transcript l s ++ [ {| role := user; content := text |} ]) ].
Proof.
  intros Hfail. rewrite chat_with_context_run. cbv zeta. rewrite Hfail.
  cbn [fst snd wire]. by rewrite transcript_insert_eq.
Qed.

Lemma remote_failure_keeps_user_turn_witness :
  (chat_with_context unreachable 1 "X" empty_state).1 = Raised timeout_error /\
  transcript 1 (chat_with_context unreachable 1 "X" empty_state).2 =
    transcript 1 empty_state ++ [ {| role := user; content := "X" |} ] /\
  wire (chat_with_context unreachable 1 "X" empty_state).2 =
    wire empty_state ++
      [ context_request
          (transcript 1 empty_state ++
             [ {| role := user; content := "X" |} ]) ].
Proof.
  apply (remote_failure_keeps_user_turn unreachable 1 "X" empty_state
           timeout_error).
  reflexivity.
Defined.

(** C4 as stated fails.  Under the client's default policy a first
    transmission that times out is sent again without a word: with a network
    that drops the first transmission and answers the second, the remote
    exchange has failed once, and yet the call returns the answer, the
    assistant turn is appended, and two transmissions have been made.  The
    failure never reaches the caller. *)
Lemma timeout_is_retried_silently :
  let client := sdk_client (dropping_first "Hello!") retry_timeouts 2 in
  let req := context_request [ {| role := user; content := "X" |} ] in
  let posted :=
    (transmit (post (dropping_first "Hello!")) retry_timeouts 2 [] req).2 in
  let '(r, s') := chat_with_context client 1 "X" empty_state in
  post (dropping_first "Hello!") [] req = inl timeout_error /\
  r = Returned "Hello!" /\
  transcript 1 s' =
    [ {| role := user; content := "X" |};
      {| role := assistant; content := "Hello!" |} ] /\
  posted = [req; req] /\
  ~ ((exists e, r = Raised e) /\
     transcript 1 s' = [ {| role := user; content := "X" |} ] /\
     length posted = 1).
Proof.
  cbv zeta. rewrite chat_with_context_run. cbv zeta.
  change (transcript 1 empty_state) with (@nil Message).
  change (complete (sdk_client (dropping_first "Hello!") retry_timeouts 2)
            (wire empty_state)
            (context_request ([] ++ [ {| role := user; content := "X" |} ])))
    with (@inr Exn Response {| message_content := "Hello!" |}).
  cbv beta iota. rewrite transcript_insert_eq.
  split; [reflexivity |]. split; [reflexivity |]. split; [reflexivity |].
  split; [reflexivity |]. intros ([e He] & _). discriminate He.
Qed.

(** When no transmission gets through, the call of [create] raises only
    after the request has been transmitted three times. *)
Example dead_network_is_tried_three_times :
  let req := context_request [ {| role := user; content := "X" |} ] in
  transmit (post dead_network) retry_timeouts 2 [] req =
  (inl timeout_error, [req; req; req]).
Proof. reflexivity. Qed.

(** Scenario A of the specification: the first exchange of a conversation. *)
Example first_exchange :
  transcript 1
    (chat_with_context (answering "Hello!" []) 1 "Hi" empty_state).2 =
  [ {| role := user; content := "Hi" |};
    {| role := assistant; content := "Hello!" |} ].
Proof.
  rewrite chat_with_context_run. cbv zeta. cbn [complete answering snd].
  by rewrite transcript_insert_eq.
Qed.

(** Scenario B of the specification: a call that times out, then the same
    text again. *)
Example retry_keeps_both_user_turns :
  transcript 1 (chat_session (flaky "Hello!") 1 ["X"; "X"] empty_state).2 =
  [ {| role := user; content := "X" |};
    {| role := user; content := "X" |};
    {| role := assistant; content := "Hello!" |} ].
Proof.
  rewrite chat_session_transcript.
  change (transcript 1 empty_state) with (@nil Message).
  cbn [chat_session]. rewrite !chat_with_context_run. reflexivity.
Qed.

(** ** Streams *)

Lemma string_app_nil_r (a : string) : a +:+ EmptyString = a.
Proof.
  induction a as [| c a IH]; [reflexivity |].
  change (String c (a +:+ EmptyString) = String c a). by rewrite IH.
Qed.

Lemma string_app_assoc (a b c : string) : (a +:+ b) +:+ c = a +:+ (b +:+ c).
Proof.
  induction a as [| x a IH]; [reflexivity |].
  change (String x ((a +:+ b) +:+ c) = String x (a +:+ (b +:+ c))).
  by rewrite IH.
Qed.

Lemma joined_app (xs ys : list string) :
  joined (xs ++ ys) = joined xs +:+ joined ys.
Proof.
  induction xs as [| x xs IH]; simpl; [reflexivity |].
  by rewrite IH, string_app_assoc.
Qed.

Lemma fragments_app (cs1 cs2 : list Chunk) :
  fragments (cs1 ++ cs2) = fragments cs1 ++ fragments cs2.
Proof. apply omap_app. Qed.

(** A chunk without content adds nothing to the text of a stream. *)
Lemma fragments_skip_none (pre post : list Chunk) :
  fragments (pre ++ {| delta_content := None |} :: post) =
  fragments (pre ++ post).
Proof. by rewrite !fragments_app. Qed.

(** The loop over the chunks: every chunk is taken, the ones with content
    are written as they come. *)
Lemma for_each_print_chunk (cs : list Chunk) (s : State) :
  for_each cs print_chunk s =
  (Returned tt,
   {| heap := heap s; wire := wire s;
      stdout := stdout s +:+ joined (fragments cs) |}).
Proof.
  revert s. induction cs as [| [[text |]] cs IH]; intros s.
  - simpl. unfold ret. rewrite string_app_nil_r. by destruct s.
  - cbn [for_each]. unfold bind, print_chunk, write. cbn [delta_content].
    rewrite IH. cbn [heap wire stdout fragments omap list_omap delta_content
                     joined foldr].
    by rewrite string_app_assoc.
  - cbn [for_each]. unfold bind, print_chunk, ret. cbn [delta_content].
    by rewrite IH.
Qed.

Lemma for_stream_print_chunk (st : Stream) (s : State) :
  for_stream st print_chunk s =
  (match broken st with
   | None => Returned tt
   | Some e => Raised e
   end,
   {| heap := heap s; wire := wire s;
      stdout := stdout s +:+ joined (fragments (chunks st)) |}).
Proof.
  unfold for_stream, bind. rewrite for_each_print_chunk.
  by destruct (broken st).
Qed.

(** C10.  The loop writes the fragments that are there, in arrival order,
    and nothing else: for every stream, the output grows by exactly the
    concatenation of the contents that are not [None]; the loop itself never
    raises (it ends as the stream ends); and a chunk whose content is [None]
    changes nothing, wherever it stands in the stream. *)
Theorem stream_prints_fragments (st : Stream) (s : State) :
  for_stream st print_chunk s =
    (match broken st with
     | None => Returned tt
     | Some e => Raised e
     end,
     {| heap := heap s; wire := wire s;
        stdout := stdout s +:+ joined (fragments (chunks st)) |}) /\
  (forall pre post b,
     for_stream {| chunks := pre ++ {| delta_content := None |} :: post;
                   broken := b |} print_chunk s =
     for_stream {| chunks := pre ++ post; broken := b |} print_chunk s) /\
  (forall pre post b text,
     for_stream {| chunks := pre ++ {| delta_content := Some text |} :: post;
                   broken := b |} print_chunk s =
     (match b with
      | None => Returned tt
      | Some e => Raised e
      end,
      {| heap := heap s; wire := wire s;
         stdout :=
           stdout s +:+ joined (fragments pre) +:+ text +:+
           joined (fragments post) |})).
Proof.
  split; [apply for_stream_print_chunk |]. split.
  - intros pre post b. rewrite !for_stream_print_chunk. cbn [chunks broken].
    by rewrite fragments_skip_none.
  - intros pre post b text. rewrite for_stream_print_chunk.
    cbn [chunks broken]. rewrite fragments_app, joined_app. reflexivity.
Qed.

(** ** The streaming functions, whole *)

Section Streaming.

Variable client : Endpoint.

Lemma streaming_example_run s :
  streaming_example client s =
  let req := streaming_request "Write a short poem about coding" in
  let out0 := stdout s +:+ ((nl +:+ "=== STREAMING EXAMPLE ===") +:+ nl) in
  match open_stream client (wire s) req with
  | inl e =>
      (Returned tt,
       {| heap := heap s; wire := wire s ++ [req];
          stdout := out0 +:+ (("Error in streaming: " +:+ exn_text e) +:+ nl) |})
  | inr st =>
      let out1 :=
        (out0 +:+ ("Streaming response:" +:+ nl)) +:+
        joined (fragments (chunks st)) in
      (Returned tt,
       {| heap := heap s; wire := wire s ++ [req];
          stdout :=
            out1 +:+
            match broken st with
            | None => nl +:+ nl
            | Some e => ("Error in streaming: " +:+ exn_text e) +:+ nl
            end |})
  end.
Proof.
  unfold streaming_example, try_except, bind at 1, print, write.
  cbn [heap wire stdout]. unfold bind at 1, chat_completions_create_stream.
  cbn [heap wire stdout].
  destruct (open_stream client (wire s) _) as [e | st]; [reflexivity |].
  unfold bind. cbn [heap wire stdout]. rewrite for_stream_print_chunk.
  cbn [heap wire stdout]. by destruct (broken st).
Qed.

Lemma example_7_streaming_run s :
  example_7_streaming client s =
  let req :=
    streaming_request
      "Write a short story about a detective solving a mystery" in
  let out0 :=
    stdout s +:+ ((nl +:+ "=== Example 7: Streaming Response ===") +:+ nl) in
  match open_stream client (wire s) req with
  | inl e =>
      (Raised e,
       {| heap := heap s; wire := wire s ++ [req]; stdout := out0 |})
  | inr st =>
      let out1 :=
        (out0 +:+ ("Streaming response:" +:+ nl)) +:+
        joined (fragments (chunks st)) in
      match broken st with
      | None =>
          (Returned tt,
           {| heap := heap s; wire := wire s ++ [req];
              stdout := out1 +:+ (nl +:+ nl) |})
      | Some e =>
          (Raised e,
           {| heap := heap s; wire := wire s ++ [req]; stdout := out1 |})
      end
  end.
Proof.
  unfold example_7_streaming, bind at 1, print, write.
  cbn [heap wire stdout]. unfold bind at 1, chat_completions_create_stream.
  cbn [heap wire stdout].
  destruct (open_stream client (wire s) _) as [e | st]; [reflexivity |].
  unfold bind. cbn [heap wire stdout]. rewrite for_stream_print_chunk.
  cbn [heap wire stdout]. by destruct (broken st).
Qed.

(** Neither streaming function touches a list: whatever the endpoint
    does, the store of conversations is as it was. *)
Lemma run_streaming_heap c s : heap (run_streaming client c s).2 = heap s.
Proof.
  destruct c; unfold run_streaming.
  - rewrite streaming_example_run. cbv zeta.
    by destruct (open_stream client (wire s) _).
  - rewrite example_7_streaming_run. cbv zeta.
    destruct (open_stream client (wire s) _) as [e | st]; [reflexivity |].
    by destruct (broken st).
Qed.

End Streaming.

(** C3, as amended.  When the stream of a streaming call is delivered to its
    end, the call returns, and what it has printed after the line
    ["Streaming response:"] is the concatenation, in arrival order, of the
    fragments of that stream, followed by the closing empty lines.  The call
    has sent its one request and has changed no list: no message is appended
    to any transcript. *)
Theorem stream_is_printed_not_recorded (client : Endpoint)
    (c : StreamingCall) (s : State) (st : Stream) :
  open_stream client (wire s) (streaming_request (streaming_prompt c))
    = inr st ->
  broken st = None ->
  run_streaming client c s =
  (Returned tt,
   {| heap := heap s;
      wire := wire s ++ [ streaming_request (streaming_prompt c) ];
      stdout :=
        (((stdout s +:+ ((nl +:+ streaming_heading c) +:+ nl)) +:+
          ("Streaming response:" +:+ nl)) +:+
         joined (fragments (chunks st))) +:+
        (nl +:+ nl) |}).
Proof.
  intros Hopen Hend. destruct c; unfold run_streaming;
    cbn [streaming_prompt streaming_heading] in *.
  - rewrite streaming_example_run. cbv zeta. by rewrite Hopen, Hend.
  - rewrite example_7_streaming_run. cbv zeta. by rewrite Hopen, Hend.
Qed.

Lemma stream_is_printed_not_recorded_witness :
  run_streaming (answering "Hello!" hello_chunks) InGuide one_conversation =
  (Returned tt,
   {| heap := heap one_conversation;
      wire := wire one_conversation ++
                [ streaming_request (streaming_prompt InGuide) ];
      stdout :=
        (((stdout one_conversation +:+
           ((nl +:+ streaming_heading InGuide) +:+ nl)) +:+
          ("Streaming response:" +:+ nl)) +:+
         joined (fragments (chunks {| chunks := hello_chunks;
                                      broken := None |}))) +:+
        (nl +:+ nl) |}).
Proof.
  apply (stream_is_printed_not_recorded (answering "Hello!" hello_chunks)
           InGuide one_conversation
           {| chunks := hello_chunks; broken := None |});
    reflexivity.
Defined.

(** C3 as stated fails: the stream ["Hel"], [None], ["lo"] is delivered to
    its end and printed, and afterwards every list is what it was; none has
    gained an assistant message with the content ["Hello"]. *)
Lemma streamed_answer_is_not_recorded :
  let s' :=
    (streaming_example (answering "Hello!" hello_chunks) one_conversation).2 in
  joined (fragments hello_chunks) = "Hello" /\
  (forall l, transcript l s' = transcript l one_conversation) /\
  ~ (exists l,
       transcript l s' =
       transcript l one_conversation ++
         [ {| role := assistant; content := "Hello" |} ]).
Proof.
  cbv zeta.
  assert (Hheap : forall l,
    transcript l
      (streaming_example (answering "Hello!" hello_chunks) one_conversation).2
    = transcript l one_conversation).
  { intros l.
    exact (f_equal (fun h : gmap positive (list Message) => h !!! l)
             (run_streaming_heap (answering "Hello!" hello_chunks) InGuide
                one_conversation)). }
  split; [reflexivity |]. split; [exact Hheap |].
  intros [l Hl]. rewrite Hheap in Hl.
  apply (f_equal length) in Hl. rewrite length_app in Hl. simpl in Hl. lia.
Qed.

(** ** Lists only grow *)

Lemma grows_refl s : grows s s.
Proof. intros l. reflexivity. Qed.

Lemma grows_trans s1 s2 s3 : grows s1 s2 -> grows s2 s3 -> grows s1 s3.
Proof. intros H12 H23 l. by transitivity (transcript l s2). Qed.

Lemma grows_same_heap s s' : heap s' = heap s -> grows s s'.
Proof. intros H l. unfold transcript. by rewrite H. Qed.

Lemma appending_ret {A} (a : A) : appending (ret a).
Proof. intros s. apply grows_refl. Qed.

Lemma appending_bind {A B} (m : M A) (k : A -> M B) :
  appending m -> (forall a, appending (k a)) -> appending (bind m k).
Proof.
  intros Hm Hk s. unfold bind. specialize (Hm s).
  destruct (m s) as [[a | e] s1]; simpl in *; [| exact Hm].
  exact (grows_trans _ _ _ Hm (Hk a s1)).
Qed.

Lemma appending_write text : appending (write text).
Proof. intros s. by apply grows_same_heap. Qed.

Lemma appending_print text : appending (print text).
Proof. apply appending_write. Qed.

Lemma appending_read_list l : appending (read_list l).
Proof. intros s. apply grows_refl. Qed.

Lemma appending_list_append l x : appending (list_append l x).
Proof.
  intros s l'. unfold list_append. cbn [snd].
  destruct (decide (l = l')) as [<- | Hne].
  - rewrite transcript_insert_eq. by apply prefix_app_r.
  - rewrite transcript_insert_ne by done. by destruct s.
Qed.

(** A list that has not been created reads as empty, so creating it changes
    no content. *)
Lemma appending_new_list : appending new_list.
Proof.
  intros s l'. unfold new_list. cbn [snd].
  destruct (decide (fresh (dom (heap s)) = l')) as [<- | Hne].
  - rewrite transcript_insert_eq. unfold transcript.
    rewrite lookup_total_alt.
    rewrite (proj1 (not_elem_of_dom (heap s) _) (is_fresh (dom (heap s)))).
    reflexivity.
  - rewrite transcript_insert_ne by done. by destruct s.
Qed.

Lemma appending_create client req : appending (chat_completions_create client req).
Proof.
  intros s. unfold chat_completions_create.
  destruct (complete client (wire s) req); by apply grows_same_heap.
Qed.

Lemma appending_chat_with_context client l text :
  appending (chat_with_context client l text).
Proof.
  unfold chat_with_context.
  repeat first
    [ apply appending_bind; [| intros ?]
    | apply appending_list_append | apply appending_read_list
    | apply appending_create | apply appending_ret ].
Qed.

Lemma appending_create_conversation_context client :
  appending (create_conversation_context client).
Proof.
  unfold create_conversation_context.
  repeat first
    [ apply appending_chat_with_context
    | apply appending_print | apply appending_new_list
    | apply appending_bind; [| intros ?] ].
Qed.

Lemma grows_run_operation client op s : grows s (run_operation client op s).
Proof.
  destruct op as [l text | | |]; unfold run_operation.
  - apply appending_chat_with_context.
  - apply appending_create_conversation_context.
  - apply grows_same_heap. apply (run_streaming_heap client InGuide).
  - apply grows_same_heap. apply (run_streaming_heap client InQuickStart).
Qed.

(** C6.  Through any run of the operations of the sources - calls of
    [chat_with_context] on any conversation, [create_conversation_context],
    the two streaming functions - every transcript only gets longer at its
    end: what it held before is a prefix of what it holds after, so no
    message is changed, moved or dropped. *)
Theorem transcript_only_grows (client : Endpoint) (ops : list Operation)
    (s : State) (l : ref) :
  transcript l s `prefix_of` transcript l (run_operations client ops s).
Proof.
  revert s. induction ops as [| op ops IH]; intros s; [reflexivity |].
  unfold run_operations. cbn [foldl].
  transitivity (transcript l (run_operation client op s)).
  - apply grows_run_operation.
  - apply IH.
Qed.

(** ** Operations modelled from the specification *)

(** C7.  [reset] returns, leaves the transcript empty and sends nothing; a
    second [reset] leaves it empty again, and the state after two is the
    state after one. *)
Theorem reset_clears_and_is_idempotent (l : ref) (s : State) :
  (reset l s).1 = Returned tt /\
  transcript l (reset l s).2 = [] /\
  wire (reset l s).2 = wire s /\
  transcript l (reset l (reset l s).2).2 = [] /\
  reset l (reset l s).2 = reset l s.
Proof.
  unfold reset. cbn [fst snd heap wire stdout].
  rewrite !transcript_insert_eq. repeat split.
  by rewrite insert_insert_eq.
Qed.

(** C8.  [history] hands out a new list with the content the transcript has
    at that moment; the transcript itself is as it was, and stays so
    whatever is then done to the list handed out - a new content as a whole,
    or one more message. *)
Theorem history_is_a_copy (l : ref) (s : State) :
  is_Some (heap s !! l) ->
  let '(r, s') := history l s in
  match r with
  | Returned snapshot =>
      snapshot <> l /\
      transcript snapshot s' = transcript l s /\
      transcript l s' = transcript l s /\
      (forall items,
         transcript l (list_assign snapshot items s').2 = transcript l s) /\
      (forall x,
         transcript l (list_append snapshot x s').2 = transcript l s)
  | Raised _ => False
  end.
Proof.
  intros Hl. unfold history.
  pose proof (fresh_not_allocated (heap s) l Hl) as Hne.
  set (snapshot := fresh (dom (heap s))) in *.
  split; [exact Hne |]. split; [apply transcript_insert_eq |].
  assert (Hsame : forall items w o,
    transcript l {| heap := <[snapshot := items]> (heap s); wire := w;
                    stdout := o |} = transcript l s).
  { intros items w o. rewrite transcript_insert_ne by done. by destruct s. }
  split; [apply Hsame |]. split.
  - intros items. unfold list_assign. cbn [snd heap wire stdout].
    rewrite insert_insert_eq. apply Hsame.
  - intros x. unfold list_append. cbn [snd heap wire stdout].
    rewrite insert_insert_eq. apply Hsame.
Qed.

Lemma history_is_a_copy_witness :
  let '(r, s') := history 1 one_conversation in
  match r with
  | Returned snapshot =>
      snapshot <> 1%positive /\
      transcript snapshot s' = transcript 1 one_conversation /\
      transcript 1 s' = transcript 1 one_conversation /\
      (forall items,
         transcript 1 (list_assign snapshot items s').2 =
         transcript 1 one_conversation) /\
      (forall x,
         transcript 1 (list_append snapshot x s').2 =
         transcript 1 one_conversation)
  | Raised _ => False
  end.
Proof.
  apply (history_is_a_copy 1 one_conversation).
  exists [ {| role := user; content := "Hi" |};
           {| role := assistant; content := "Hello!" |} ].
  reflexivity.
Defined.

(** ** [create_conversation_context], whole *)

Section ConversationExample.

Variable client : Endpoint.

(** Every way the example can go, by what the endpoint does with its two
    requests. *)
Lemma create_conversation_context_run s :
  create_conversation_context client s =
  let l := fresh (dom (heap s)) in
  let req1 := context_request [first_user_turn] in
  let out1 :=
    (stdout s +:+ ((nl +:+ "=== CONVERSATION CONTEXT EXAMPLE ===") +:+ nl)) +:+
    ("User: Hello, I'm learning Python" +:+ nl) in
  match complete client (wire s) req1 with
  | inl e =>
      (Raised e,
       {| heap := <[l := [first_user_turn]]> (heap s);
          wire := wire s ++ [req1]; stdout := out1 |})
  | inr r1 =>
      let req2 :=
        context_request [first_user_turn; assistant_turn r1; second_user_turn] in
      let out2 :=
        (out1 +:+ (("Assistant: " +:+ message_content r1) +:+ nl)) +:+
        ("User: What should I focus on first?" +:+ nl) in
      match complete client (wire s ++ [req1]) req2 with
      | inl e =>
          (Raised e,
           {| heap := <[l := [first_user_turn; assistant_turn r1;
                              second_user_turn]]> (heap s);
              wire := (wire s ++ [req1]) ++ [req2]; stdout := out2 |})
      | inr r2 =>
          (Returned tt,
           {| heap := <[l := [first_user_turn; assistant_turn r1;
                              second_user_turn; assistant_turn r2]]> (heap s);
              wire := (wire s ++ [req1]) ++ [req2];
              stdout :=
                out2 +:+ (("Assistant: " +:+ message_content r2) +:+ nl) |})
      end
  end.
Proof.
  unfold create_conversation_context, bind at 1, print, write.
  cbn [heap wire stdout]. unfold bind at 1, new_list.
  cbn [heap wire stdout]. unfold bind at 1. unfold bind at 1.
  rewrite chat_with_context_run. cbv zeta. cbn [heap wire stdout].
  rewrite transcript_insert_eq. rewrite insert_insert_eq.
  change ([] ++ [ {| role := user; content := "Hello, I'm learning Python" |} ])
    with [first_user_turn].
  destruct (complete client (wire s) _) as [e | r1]; [reflexivity |].
  rewrite insert_insert_eq.
  unfold bind at 1. cbn [heap wire stdout]. unfold bind at 1.
  cbn [heap wire stdout]. unfold bind at 1.
  rewrite chat_with_context_run. cbv zeta. cbn [heap wire stdout].
  rewrite transcript_insert_eq. rewrite insert_insert_eq.
  change (([first_user_turn] ++
             [ {| role := assistant; content := message_content r1 |} ]) ++
            [ {| role := user; content := "What should I focus on first?" |} ])
    with [first_user_turn; assistant_turn r1; second_user_turn].
  destruct (complete client (wire s ++ _) _) as [e | r2]; [reflexivity |].
  rewrite insert_insert_eq. reflexivity.
Qed.

End ConversationExample.

(** X1.  When the endpoint answers both requests of
    [create_conversation_context], the second request holds the first
    exchange before the new question - the first user message, the first
    answer, the second user message - and the example returns with a new
    conversation of four messages, two requests sent, and both answers
    printed after their questions. *)
Theorem conversation_example_carries_context (client : Endpoint) (s : State)
    (r1 r2 : Response) :
  complete client (wire s) (context_request [first_user_turn]) = inr r1 ->
  complete client (wire s ++ [context_request [first_user_turn]])
    (context_request [first_user_turn; assistant_turn r1; second_user_turn])
    = inr r2 ->
  create_conversation_context client s =
  (Returned tt,
   {| heap :=
        <[fresh (dom (heap s)) :=
            [first_user_turn; assistant_turn r1;
             second_user_turn; assistant_turn r2]]> (heap s);
      wire :=
        (wire s ++ [context_request [first_user_turn]]) ++
        [context_request
           [first_user_turn; assistant_turn r1; second_user_turn]];
      stdout :=
        ((((stdout s +:+
            ((nl +:+ "=== CONVERSATION CONTEXT EXAMPLE ===") +:+ nl)) +:+
           ("User: Hello, I'm learning Python" +:+ nl)) +:+
          (("Assistant: " +:+ message_content r1) +:+ nl)) +:+
         ("User: What should I focus on first?" +:+ nl)) +:+
        (("Assistant: " +:+ message_content r2) +:+ nl) |}).
Proof.
  intros H1 H2. rewrite create_conversation_context_run. cbv zeta.
  rewrite H1, H2. reflexivity.
Qed.

Lemma conversation_example_carries_context_witness :
  create_conversation_context (answering "Hello!" []) empty_state =
  (Returned tt,
   {| heap :=
        <[fresh (dom (heap empty_state)) :=
            [first_user_turn; assistant_turn {| message_content := "Hello!" |};
             second_user_turn;
             assistant_turn {| message_content := "Hello!" |}]]>
          (heap empty_state);
      wire :=
        (wire empty_state ++ [context_request [first_user_turn]]) ++
        [context_request
           [first_user_turn; assistant_turn {| message_content := "Hello!" |};
            second_user_turn]];
      stdout :=
        ((((stdout empty_state +:+
            ((nl +:+ "=== CONVERSATION CONTEXT EXAMPLE ===") +:+ nl)) +:+
           ("User: Hello, I'm learning Python" +:+ nl)) +:+
          (("Assistant: " +:+
            message_content {| message_content := "Hello!" |}) +:+ nl)) +:+
         ("User: What should I focus on first?" +:+ nl)) +:+
        (("Assistant: " +:+
          message_content {| message_content := "Hello!" |}) +:+ nl) |}).
Proof.
  apply (conversation_example_carries_context (answering "Hello!" [])
           empty_state {| message_content := "Hello!" |}
           {| message_content := "Hello!" |}); reflexivity.
Defined.

(** X2.  When the endpoint fails the first request of
    [create_conversation_context], the example raises that exception: the
    second question is neither printed nor sent, one request has gone out,
    and the new conversation holds the unanswered first user message. *)
Theorem conversation_example_first_failure (client : Endpoint) (s : State)
    (e : Exn) :
  complete client (wire s) (context_request [first_user_turn]) = inl e ->
  create_conversation_context client s =
  (Raised e,
   {| heap := <[fresh (dom (heap s)) := [first_user_turn]]> (heap s);
      wire := wire s ++ [context_request [first_user_turn]];
      stdout :=
        (stdout s +:+
         ((nl +:+ "=== CONVERSATION CONTEXT EXAMPLE ===") +:+ nl)) +:+
        ("User: Hello, I'm learning Python" +:+ nl) |}).
Proof.
  intros H1. rewrite create_conversation_context_run. cbv zeta.
  rewrite H1. reflexivity.
Qed.

Lemma conversation_example_first_failure_witness :
  create_conversation_context unreachable empty_state =
  (Raised timeout_error,
   {| heap :=
        <[fresh (dom (heap empty_state)) := [first_user_turn]]>
          (heap empty_state);
      wire := wire empty_state ++ [context_request [first_user_turn]];
      stdout :=
        (stdout empty_state +:+
         ((nl +:+ "=== CONVERSATION CONTEXT EXAMPLE ===") +:+ nl)) +:+
        ("User: Hello, I'm learning Python" +:+ nl) |}).
Proof.
  apply (conversation_example_first_failure unreachable empty_state
           timeout_error); reflexivity.
Defined.

(** X3.  When the endpoint answers the first request of
    [create_conversation_context] and fails the second, the example raises
    that exception after printing the first answer and the second question;
    the conversation keeps the first exchange and the unanswered second user
    message. *)
Theorem conversation_example_second_failure (client : Endpoint) (s : State)
    (r1 : Response) (e : Exn) :
  complete client (wire s) (context_request [first_user_turn]) = inr r1 ->
  complete client (wire s ++ [context_request [first_user_turn]])
    (context_request [first_user_turn; assistant_turn r1; second_user_turn])
    = inl e ->
  create_conversation_context client s =
  (Raised e,
   {| heap :=
        <[fresh (dom (heap s)) :=
            [first_user_turn; assistant_turn r1; second_user_turn]]> (heap s);
      wire :=
        (wire s ++ [context_request [first_user_turn]]) ++
        [context_request
           [first_user_turn; assistant_turn r1; second_user_turn]];
      stdout :=
        (((stdout s +:+
           ((nl +:+ "=== CONVERSATION CONTEXT EXAMPLE ===") +:+ nl)) +:+
          ("User: Hello, I'm learning Python" +:+ nl)) +:+
         (("Assistant: " +:+ message_content r1) +:+ nl)) +:+
        ("User: What should I focus on first?" +:+ nl) |}).
Proof.
  intros H1 H2. rewrite create_conversation_context_run. cbv zeta.
  rewrite H1, H2. reflexivity.
Qed.

Lemma conversation_example_second_failure_witness :
  create_conversation_context (answering_once "Hello!") empty_state =
  (Raised timeout_error,
   {| heap :=
        <[fresh (dom (heap empty_state)) :=
            [first_user_turn; assistant_turn {| message_content := "Hello!" |};
             second_user_turn]]> (heap empty_state);
      wire :=
        (wire empty_state ++ [context_request [first_user_turn]]) ++
        [context_request
           [first_user_turn; assistant_turn {| message_content := "Hello!" |};
            second_user_turn]];
      stdout :=
        (((stdout empty_state +:+
           ((nl +:+ "=== CONVERSATION CONTEXT EXAMPLE ===") +:+ nl)) +:+
          ("User: Hello, I'm learning Python" +:+ nl)) +:+
         (("Assistant: " +:+
           message_content {| message_content := "Hello!" |}) +:+ nl)) +:+
        ("User: What should I focus on first?" +:+ nl) |}).
Proof.
  apply (conversation_example_second_failure (answering_once "Hello!")
           empty_state {| message_content := "Hello!" |} timeout_error);
    reflexivity.
Defined.



(** X5.  A call of [chat_with_context] is local to its conversation: every
    other list holds what it held, and nothing is printed. *)
Theorem chat_call_is_local (client : Endpoint) (l l' : ref) (text : string)
    (s : State) :
  l <> l' ->
  transcript l' (chat_with_context client l text s).2 = transcript l' s /\
  stdout (chat_with_context client l text s).2 = stdout s.
Proof.
  intros Hne. split; [by apply chat_with_context_other |].
  rewrite chat_with_context_run. cbv zeta.
  by destruct (complete client (wire s) _).
Qed.

Lemma chat_call_is_local_witness :
  transcript 1
    (chat_with_context (answering "Hello!" []) 2 "Hi" one_conversation).2 =
    transcript 1 one_conversation /\
  stdout (chat_with_context (answering "Hello!" []) 2 "Hi" one_conversation).2
    = stdout one_conversation.
Proof.
  apply (chat_call_is_local (answering "Hello!" []) 2 1 "Hi" one_conversation).
  discriminate.
Defined.

(** X6.  After a call that the endpoint failed, the next call on the same
    conversation sends the unanswered user message again, right before the
    new one: the failed turn is part of the context from then on. *)
Theorem failed_turn_is_sent_again (client : Endpoint) (l : ref)
    (text1 text2 : string) (s : State) (e : Exn) :
  complete client (wire s)
    (context_request
       (transcript l s ++ [ {| role := user; content := text1 |} ])) = inl e ->
  wire (chat_with_context client l text2
          (chat_with_context client l text1 s).2).2 =
  wire s ++
    [ context_request
        (transcript l s ++ [ {| role := user; content := text1 |} ]);
      context_request
        (transcript l s ++ [ {| role := user; content := text1 |};
                             {| role := user; content := text2 |} ]) ].
Proof.
  intros Hfail. rewrite (chat_with_context_run client l text1 s). cbv zeta.
  rewrite Hfail. cbn [snd]. rewrite chat_with_context_run. cbv zeta.
  cbn [wire]. rewrite transcript_insert_eq.
  destruct (complete client (wire s ++ _) _); cbn [snd wire];
    by rewrite <- !app_assoc.
Qed.

Lemma failed_turn_is_sent_again_witness :
  wire (chat_with_context (flaky "Hello!") 1 "Y"
          (chat_with_context (flaky "Hello!") 1 "X" empty_state).2).2 =
  wire empty_state ++
    [ context_request
        (transcript 1 empty_state ++ [ {| role := user; content := "X" |} ]);
      context_request
        (transcript 1 empty_state ++ [ {| role := user; content := "X" |};
                                       {| role := user; content := "Y" |} ]) ].
Proof.
  apply (failed_turn_is_sent_again (flaky "Hello!") 1 "X" "Y" empty_state
           timeout_error).
  reflexivity.
Defined.

(** ** The streaming functions when something goes wrong *)

(** X7.  [streaming_example] never raises: whatever the endpoint does -
    refuse the request, break the stream halfway, deliver it whole - the call
    returns, having sent exactly one request and changed no list. *)
Theorem streaming_example_never_raises (client : Endpoint) (s : State) :
  (streaming_example client s).1 = Returned tt /\
  wire (streaming_example client s).2 =
    wire s ++ [ streaming_request "Write a short poem about coding" ] /\
  heap (streaming_example client s).2 = heap s.
Proof.
  rewrite streaming_example_run. cbv zeta.
  by destruct (open_stream client (wire s) _).
Qed.

(** X8.  When the stream breaks after some chunks, [streaming_example] has
    printed the fragments that arrived before the break and, right after
    them on the same line, the report ["Error in streaming: "] with the text
    of the exception; the closing empty lines are not printed. *)
Theorem streaming_example_reports_broken_stream (client : Endpoint)
    (s : State) (st : Stream) (e : Exn) :
  open_stream client (wire s)
    (streaming_request "Write a short poem about coding") = inr st ->
  broken st = Some e ->
  streaming_example client s =
  (Returned tt,
   {| heap := heap s;
      wire := wire s ++ [ streaming_request "Write a short poem about coding" ];
      stdout :=
        (((stdout s +:+ ((nl +:+ "=== STREAMING EXAMPLE ===") +:+ nl)) +:+
          ("Streaming response:" +:+ nl)) +:+
         joined (fragments (chunks st))) +:+
        (("Error in streaming: " +:+ exn_text e) +:+ nl) |}).
Proof.
  intros Hopen Hbroken. rewrite streaming_example_run. cbv zeta.
  by rewrite Hopen, Hbroken.
Qed.

Lemma streaming_example_reports_broken_stream_witness :
  streaming_example (breaking hello_chunks) empty_state =
  (Returned tt,
   {| heap := heap empty_state;
      wire := wire empty_state ++
                [ streaming_request "Write a short poem about coding" ];
      stdout :=
        (((stdout empty_state +:+
           ((nl +:+ "=== STREAMING EXAMPLE ===") +:+ nl)) +:+
          ("Streaming response:" +:+ nl)) +:+
         joined (fragments (chunks {| chunks := hello_chunks;
                                      broken := Some connection_error |}))) +:+
        (("Error in streaming: " +:+ exn_text connection_error) +:+ nl) |}).
Proof.
  apply (streaming_example_reports_broken_stream (breaking hello_chunks)
           empty_state
           {| chunks := hello_chunks; broken := Some connection_error |}
           connection_error); reflexivity.
Defined.

(** X9.  When the endpoint refuses the streaming request,
    [streaming_example] prints its heading and the report
    ["Error in streaming: "] with the text of the exception, and nothing
    between them: the line ["Streaming response:"] is not printed. *)
Theorem streaming_example_reports_refusal (client : Endpoint) (s : State)
    (e : Exn) :
  open_stream client (wire s)
    (streaming_request "Write a short poem about coding") = inl e ->
  streaming_example client s =
  (Returned tt,
   {| heap := heap s;
      wire := wire s ++ [ streaming_request "Write a short poem about coding" ];
      stdout :=
        (stdout s +:+ ((nl +:+ "=== STREAMING EXAMPLE ===") +:+ nl)) +:+
        (("Error in streaming: " +:+ exn_text e) +:+ nl) |}).
Proof.
  intros Hopen. rewrite streaming_example_run. cbv zeta. by rewrite Hopen.
Qed.

Lemma streaming_example_reports_refusal_witness :
  streaming_example unreachable empty_state =
  (Returned tt,
   {| heap := heap empty_state;
      wire := wire empty_state ++
                [ streaming_request "Write a short poem about coding" ];
      stdout :=
        (stdout empty_state +:+
         ((nl +:+ "=== STREAMING EXAMPLE ===") +:+ nl)) +:+
        (("Error in streaming: " +:+ exn_text timeout_error) +:+ nl) |}).
Proof.
  apply (streaming_example_reports_refusal unreachable empty_state
           timeout_error); reflexivity.
Defined.

(** X10.  [example_7_streaming] catches nothing: when the stream breaks
    after some chunks, the call raises the stream's exception; the fragments
    that arrived before the break stay printed, and the closing empty lines
    are not printed. *)
Theorem example_7_streaming_raises_on_broken_stream (client : Endpoint)
    (s : State) (st : Stream) (e : Exn) :
  open_stream client (wire s)
    (streaming_request
       "Write a short story about a detective solving a mystery") = inr st ->
  broken st = Some e ->
  example_7_streaming client s =
  (Raised e,
   {| heap := heap s;
      wire := wire s ++
                [ streaming_request
                    "Write a short story about a detective solving a mystery" ];
      stdout :=
        ((stdout s +:+
          ((nl +:+ "=== Example 7: Streaming Response ===") +:+ nl)) +:+
         ("Streaming response:" +:+ nl)) +:+
        joined (fragments (chunks st)) |}).
Proof.
  intros Hopen Hbroken. rewrite example_7_streaming_run. cbv zeta.
  by rewrite Hopen, Hbroken.
Qed.

Lemma example_7_streaming_raises_on_broken_stream_witness :
  example_7_streaming (breaking hello_chunks) empty_state =
  (Raised connection_error,
   {| heap := heap empty_state;
      wire := wire empty_state ++
                [ streaming_request
                    "Write a short story about a detective solving a mystery" ];
      stdout :=
        ((stdout empty_state +:+
          ((nl +:+ "=== Example 7: Streaming Response ===") +:+ nl)) +:+
         ("Streaming response:" +:+ nl)) +:+
        joined (fragments (chunks {| chunks := hello_chunks;
                                     broken := Some connection_error |})) |}).
Proof.
  apply (example_7_streaming_raises_on_broken_stream (breaking hello_chunks)
           empty_state
           {| chunks := hello_chunks; broken := Some connection_error |}
           connection_error); reflexivity.
Defined.

(** X11.  When the endpoint refuses the streaming request,
    [example_7_streaming] raises that exception with only its heading
    printed. *)
Theorem example_7_streaming_raises_on_refusal (client : Endpoint)
    (s : State) (e : Exn) :
  open_stream client (wire s)
    (streaming_request
       "Write a short story about a detective solving a mystery") = inl e ->
  example_7_streaming client s =
  (Raised e,
   {| heap := heap s;
      wire := wire s ++
                [ streaming_request
                    "Write a short story about a detective solving a mystery" ];
      stdout :=
        stdout s +:+
        ((nl +:+ "=== Example 7: Streaming Response ===") +:+ nl) |}).
Proof.
  intros Hopen. rewrite example_7_streaming_run. cbv zeta. by rewrite Hopen.
Qed.

Lemma example_7_streaming_raises_on_refusal_witness :
  example_7_streaming unreachable empty_state =
  (Raised timeout_error,
   {| heap := heap empty_state;
      wire := wire empty_state ++
                [ streaming_request
                    "Write a short story about a detective solving a mystery" ];
      stdout :=
        stdout empty_state +:+
        ((nl +:+ "=== Example 7: Streaming Response ===") +:+ nl) |}).
Proof.
  apply (example_7_streaming_raises_on_refusal unreachable empty_state
           timeout_error); reflexivity.
Defined.

(** ** What a run of calls sends *)

Section SessionRequests.

Variable client : Endpoint.
Variable l : ref.

(** One call: the request it sends, and the transcript it leaves, which
    starts with the messages of that request. *)
Lemma chat_with_context_sent text s :
  let req :=
    context_request
      (transcript l s ++ [ {| role := user; content := text |} ]) in
  wire (chat_with_context client l text s).2 = wire s ++ [req] /\
  messages req `prefix_of` transcript l (chat_with_context client l text s).2.
Proof.
  rewrite chat_with_context_run. cbv zeta.
  destruct (complete client (wire s) _) as [e | response];
    cbn [snd wire messages context_request]; rewrite transcript_insert_eq;
    (split; [reflexivity |]); [reflexivity | by apply prefix_app_r].
Qed.

End SessionRequests.

(** X12.  A run of calls on one conversation sends exactly one request per
    call, answered or not, each with model ["gpt-4"] and [max_tokens=150],
    and the context only accumulates: every request holds all the messages
    of every earlier request of the run (and of the transcript the run
    started from) and at least one more.  Nothing is ever trimmed from what
    is sent. *)
Theorem session_context_accumulates (client : Endpoint) (l : ref)
    (texts : list string) (s : State) :
  exists reqs : list Request,
    wire (chat_session client l texts s).2 = wire s ++ reqs /\
    length reqs = length texts /\
    Forall (fun r =>
              model r = "gpt-4" /\ max_tokens r = Some 150%Z /\
              stream r = false /\
              transcript l s `prefix_of` messages r /\
              length (transcript l s) < length (messages r)) reqs /\
    StronglySorted context_grows reqs.
Proof.
  revert s. induction texts as [| text rest IH]; intros s.
  - exists []. simpl. rewrite app_nil_r. repeat split; constructor.
  - simpl. destruct (chat_with_context_sent client l text s) as [Hwire Hpre].
    cbv zeta in Hwire, Hpre.
    destruct (chat_with_context client l text s) as [r s1].
    cbn [snd] in Hwire, Hpre.
    destruct (IH s1) as (reqs & Hw & Hlen & Hall & Hsorted).
    destruct (chat_session client l rest s1) as [rs s2]. cbn [snd] in *.
    set (req := context_request
                  (transcript l s ++ [ {| role := user; content := text |} ]))
      in *.
    assert (Hreq : length (messages req) = S (length (transcript l s))).
    { unfold req. cbn [messages context_request]. rewrite length_app. simpl. lia. }
    pose proof (prefix_length _ _ Hpre) as Hgrown.
    exists (req :: reqs). split; [| split; [| split]].
    + rewrite Hw, Hwire. by rewrite <- app_assoc.
    + simpl. by rewrite Hlen.
    + constructor.
      * repeat split; try reflexivity; [| lia].
        unfold req. cbn [messages context_request]. by apply prefix_app_r.
      * eapply Forall_impl; [exact Hall |].
        intros r' (Hm & Hc & Hs & Hp & Hl). repeat split; try done; [| lia].
        transitivity (transcript l s1); [| exact Hp].
        transitivity (messages req); [| exact Hpre].
        unfold req. cbn [messages context_request]. by apply prefix_app_r.
    + constructor; [exact Hsorted |].
      eapply Forall_impl; [exact Hall |].
      intros r' (_ & _ & _ & Hp & Hl). split.
      * by transitivity (transcript l s1).
      * lia.
Qed.


(** ** [run_all_examples] of the quick start *)

Lemma for_each_stops (before after : list (M unit)) (failing : M unit)
    (s s1 s2 : State) (e : Exn) :
  for_each before (fun ex => ex) s = (Returned tt, s1) ->
  failing s1 = (Raised e, s2) ->
  for_each (before ++ failing :: after) (fun ex => ex) s = (Raised e, s2).
Proof.
  revert s. induction before as [| ex before IH]; intros s Hbefore Hfail.
  - injection Hbefore as <-. cbn [app for_each]. unfold bind.
    by rewrite Hfail.
  - cbn [app for_each] in *. unfold bind in *.
    destruct (ex s) as [[[] | e'] s']; [| discriminate].
    by apply IH.
Qed.

(** One step of a sequence inside [try]: the first statement returns and
    the rest goes on, or it raises and the handler takes over. *)
Lemma try_seq_cons {A} (m : M unit) (rest : M A) (handler : Exn -> M A) s :
  try_except (m ;; rest) handler s =
  match m s with
  | (Returned _, s') => try_except rest handler s'
  | (Raised e, s') => handler e s'
  end.
Proof. unfold try_except, bind. by destruct (m s) as [[[] | e] s']. Qed.

Lemma try_each_cons {A} (m : M unit) (ms : list (M unit)) (k : M A)
    (handler : Exn -> M A) s :
  try_except (for_each (m :: ms) (fun ex => ex) ;; k) handler s =
  match m s with
  | (Returned _, s') => try_except (for_each ms (fun ex => ex) ;; k) handler s'
  | (Raised e, s') => handler e s'
  end.
Proof.
  cbn [for_each]. unfold try_except, bind. by destruct (m s) as [[[] | e] s'].
Qed.

Section RunAllExamples.

Variable client : Endpoint.
Variables example_1_simple_chat example_4_embeddings : M unit.
Variables example_8_function_calling example_9_moderation : M unit.
Variable example_10_models_info : M unit.

(** The runner is its heading, then the examples one after the other
    inside [try], the closing lines after the last one. *)
Lemma run_all_examples_run s :
  run_all_examples client example_1_simple_chat example_4_embeddings
    example_8_function_calling example_9_moderation example_10_models_info s =
  try_except
    (for_each
       (examples_run client example_1_simple_chat example_4_embeddings
          example_8_function_calling example_9_moderation
          example_10_models_info) (fun ex => ex) ;;
     print (nl +:+ string_times "=" 40) ;;
     print "All examples completed successfully!")
    (fun e =>
       print ("Error running examples: " +:+ exn_text e) ;;
       print "Make sure you have set your OPENAI_API_KEY environment variable")
    (after_heading s).
Proof.
  unfold run_all_examples, examples_run.
  unfold bind at 1, print at 1, write at 1. cbn [heap wire stdout].
  unfold bind at 1, print at 1, write at 1. cbn [heap wire stdout].
  fold (after_heading s). generalize (after_heading s) as s0. intros s0.
  do 8 (rewrite try_each_cons, try_seq_cons;
        match goal with
        | |- context [ match ?ex ?st with _ => _ end ] =>
            destruct (ex st) as [[[] | ?] ?]; [| reflexivity]
        end).
  reflexivity.
Qed.

End RunAllExamples.

(** X13.  [run_all_examples] of the quick start never raises, whatever the
    endpoint and the examples do: an exception of any example ends in its
    handler, which only prints. *)
Theorem run_all_examples_never_raises (client : Endpoint)
    (example_1_simple_chat example_4_embeddings example_8_function_calling
       example_9_moderation example_10_models_info : M unit) (s : State) :
  (run_all_examples client example_1_simple_chat example_4_embeddings
     example_8_function_calling example_9_moderation example_10_models_info
     s).1 = Returned tt.
Proof.
  rewrite run_all_examples_run. unfold try_except.
  destruct (bind _ _ (after_heading s)) as [[[] | e] s']; reflexivity.
Qed.

(** X14.  [run_all_examples] stops at the first example that raises: the
    examples before it have run, the ones after it are not run at all, and
    the runner returns after printing ["Error running examples: "] with the
    text of the exception and the hint about the API key.  The closing
    lines of a complete run are not printed. *)
Theorem run_all_examples_stops_at_first_failure (client : Endpoint)
    (example_1_simple_chat example_4_embeddings example_8_function_calling
       example_9_moderation example_10_models_info : M unit)
    (before after : list (M unit)) (failing : M unit) (s : State) (e : Exn) :
  examples_run client example_1_simple_chat example_4_embeddings
    example_8_function_calling example_9_moderation example_10_models_info =
    before ++ failing :: after ->
  (for_each before (fun ex => ex) (after_heading s)).1 = Returned tt ->
  (failing (for_each before (fun ex => ex) (after_heading s)).2).1 =
    Raised e ->
  run_all_examples client example_1_simple_chat example_4_embeddings
    example_8_function_calling example_9_moderation example_10_models_info s =
  let s2 := (failing (for_each before (fun ex => ex) (after_heading s)).2).2 in
  (Returned tt,
   {| heap := heap s2; wire := wire s2;
      stdout :=
        (stdout s2 +:+ (("Error running examples: " +:+ exn_text e) +:+ nl)) +:+
        ("Make sure you have set your OPENAI_API_KEY environment variable" +:+
         nl) |}).
Proof.
  intros Hsplit Hbefore Hfail. rewrite run_all_examples_run, Hsplit.
  destruct (for_each before (fun ex => ex) (after_heading s)) as [r1 s1] eqn:E1.
  cbn [fst snd] in *. subst r1.
  destruct (failing s1) as [r2 s2] eqn:E2. cbn [fst snd] in *. subst r2.
  unfold try_except, bind at 1.
  rewrite (for_each_stops before after failing _ s1 s2 e E1 E2).
  reflexivity.
Qed.

Lemma run_all_examples_stops_at_first_failure_witness :
  run_all_examples (answering_then_breaking "Hello!" hello_chunks)
    (ret tt) (ret tt) (ret tt) (ret tt) (ret tt) empty_state =
  let client := answering_then_breaking "Hello!" hello_chunks in
  let before :=
    [ ret tt; example_2_conversation client; example_3_code_generation client;
      ret tt ] in
  let s2 :=
    (example_7_streaming client
       (for_each before (fun ex => ex) (after_heading empty_state)).2).2 in
  (Returned tt,
   {| heap := heap s2; wire := wire s2;
      stdout :=
        (stdout s2 +:+
         (("Error running examples: " +:+ exn_text connection_error) +:+ nl)) +:+
        ("Make sure you have set your OPENAI_API_KEY environment variable" +:+
         nl) |}).
Proof.
  apply (run_all_examples_stops_at_first_failure
           (answering_then_breaking "Hello!" hello_chunks)
           (ret tt) (ret tt) (ret tt) (ret tt) (ret tt)
           [ ret tt;
             example_2_conversation
               (answering_then_breaking "Hello!" hello_chunks);
             example_3_code_generation
               (answering_then_breaking "Hello!" hello_chunks);
             ret tt ]
           [ ret tt; ret tt; ret tt ]
           (example_7_streaming (answering_then_breaking "Hello!" hello_chunks))
           empty_state connection_error); reflexivity.
Defined.

(** X15.  When every example returns, [run_all_examples] returns after
    printing, below the output of the last example, an empty line, the rule
    of forty [=] and ["All examples completed successfully!"]; no error
    report is printed. *)
Theorem run_all_examples_completes (client : Endpoint)
    (example_1_simple_chat example_4_embeddings example_8_function_calling
       example_9_moderation example_10_models_info : M unit) (s : State) :
  (for_each
     (examples_run client example_1_simple_chat example_4_embeddings
        example_8_function_calling example_9_moderation
        example_10_models_info)
     (fun ex => ex) (after_heading s)).1 = Returned tt ->
  run_all_examples client example_1_simple_chat example_4_embeddings
    example_8_function_calling example_9_moderation example_10_models_info s =
  let s1 :=
    (for_each
       (examples_run client example_1_simple_chat example_4_embeddings
          example_8_function_calling example_9_moderation
          example_10_models_info)
       (fun ex => ex) (after_heading s)).2 in
  (Returned tt,
   {| heap := heap s1; wire := wire s1;
      stdout :=
        (stdout s1 +:+ ((nl +:+ string_times "=" 40) +:+ nl)) +:+
        ("All examples completed successfully!" +:+ nl) |}).
Proof.
  intros Hall. rewrite run_all_examples_run.
  destruct (for_each _ _ (after_heading s)) as [r1 s1] eqn:E1.
  cbn [fst snd] in *. subst r1.
  unfold try_except, bind at 1. rewrite E1. reflexivity.
Qed.

Lemma run_all_examples_completes_witness :
  run_all_examples (answering "Hello!" hello_chunks)
    (ret tt) (ret tt) (ret tt) (ret tt) (ret tt) empty_state =
  let s1 :=
    (for_each
       (examples_run (answering "Hello!" hello_chunks)
          (ret tt) (ret tt) (ret tt) (ret tt) (ret tt))
       (fun ex => ex) (after_heading empty_state)).2 in
  (Returned tt,
   {| heap := heap s1; wire := wire s1;
      stdout :=
        (stdout s1 +:+ ((nl +:+ string_times "=" 40) +:+ nl)) +:+
        ("All examples completed successfully!" +:+ nl) |}).
Proof.
  apply (run_all_examples_completes (answering "Hello!" hello_chunks)
           (ret tt) (ret tt) (ret tt) (ret tt) (ret tt) empty_state).
  reflexivity.
Defined.

(** ** The examples over files and other remote calls *)

(** One step of a block: what each kind of statement does before the rest
    goes on. *)
Lemma wbind_wprint {B} (text : string) (k : unit -> W B) w :
  wbind (wprint text) k w =
  k tt {| out := out w +:+ (text +:+ nl); disk := disk w; calls := calls w |}.
Proof. reflexivity. Qed.

Lemma wbind_write_file {B} (path content : string) (k : unit -> W B) w :
  wbind (write_file path content) k w =
  k tt {| out := out w; disk := <[path := content]> (disk w);
          calls := calls w |}.
Proof. reflexivity. Qed.

Lemma wbind_remote {A B} (call : Call) (answer : list Call -> Exn + A)
    (k : A -> W B) w :
  wbind (remote call answer) k w =
  match answer (calls w) with
  | inl e =>
      (Raised e,
       {| out := out w; disk := disk w; calls := calls w ++ [call] |})
  | inr a =>
      k a {| out := out w; disk := disk w; calls := calls w ++ [call] |}
  end.
Proof. unfold wbind, remote. by destruct (answer (calls w)). Qed.

Lemma wbind_open_rb {B} (path content : string) (k : string -> W B) w :
  disk w !! path = Some content ->
  wbind (open_rb path) k w = k content w.
Proof. intros H. unfold wbind, open_rb. by rewrite H. Qed.

Section SpeechExamples.

Variable service : Service.

(** X16.  [text_to_speech_example] never raises, and writes the file only
    when the service has answered: then [output_speech.mp3] holds the
    content of the answer, replacing any older file of that name, and the
    confirmation is printed; when the call fails, the working directory is
    as it was and the error is printed instead. *)
Theorem speech_is_saved_only_when_answered (w : World) :
  text_to_speech_example service w =
  let input := "Hello, this is a test of OpenAI's text-to-speech system." in
  let out0 := out w +:+ ((nl +:+ "=== TEXT TO SPEECH ===") +:+ nl) in
  let sent := calls w ++ [SpeechCreate "tts-1" "alloy" input] in
  match speech_create service (calls w) "tts-1" "alloy" input with
  | inr content =>
      (Returned tt,
       {| out := out0 +:+ ("Audio file saved as 'output_speech.mp3'" +:+ nl);
          disk := <["output_speech.mp3" := content]> (disk w);
          calls := sent |})
  | inl e =>
      (Returned tt,
       {| out := out0 +:+ (("Error in text-to-speech: " +:+ exn_text e) +:+ nl);
          disk := disk w; calls := sent |})
  end.
Proof.
  unfold text_to_speech_example, wtry_except, wbind, wprint, remote,
    write_file.
  cbn [out disk calls].
  by destruct (speech_create service (calls w) _ _ _).
Qed.

(** X17.  [example_6_text_to_speech] writes [speech_output.mp3] with the
    content of the answer when the service answers, and raises the
    exception of the service, with the working directory as it was, when the
    call fails. *)
Theorem example_6_saves_or_raises (w : World) :
  example_6_text_to_speech service w =
  let input :=
    "Hello! This is a test of OpenAI's text-to-speech system. It sounds quite natural!" in
  let out0 :=
    out w +:+ ((nl +:+ "=== Example 6: Text to Speech ===") +:+ nl) in
  let sent := calls w ++ [SpeechCreate "tts-1" "alloy" input] in
  match speech_create service (calls w) "tts-1" "alloy" input with
  | inr content =>
      (Returned tt,
       {| out := out0 +:+ ("Audio saved as 'speech_output.mp3'" +:+ nl);
          disk := <["speech_output.mp3" := content]> (disk w);
          calls := sent |})
  | inl e => (Raised e, {| out := out0; disk := disk w; calls := sent |})
  end.
Proof.
  unfold example_6_text_to_speech, wbind, wprint, remote, write_file.
  cbn [out disk calls].
  by destruct (speech_create service (calls w) _ _ _).
Qed.

End SpeechExamples.

Section FileExample.

Variable service : Service.

(** The cleanup of [file_operations_example], where the sample file is
    there. *)
Lemma sample_file_cleanup (o : string) (d : gmap string string)
    (k : list Call) (content : string) :
  wbind (os_path_exists "sample_file.txt")
    (fun there : bool =>
       if there then os_remove "sample_file.txt" else wret tt)
    {| out := o; disk := <["sample_file.txt" := content]> d; calls := k |} =
  (Returned tt,
   {| out := o; disk := delete "sample_file.txt" d; calls := k |}).
Proof.
  unfold wbind, os_path_exists, os_remove. cbn [out disk calls].
  rewrite lookup_insert_eq.
  rewrite bool_decide_true by (by eexists). cbn [out disk calls].
  by rewrite delete_insert_eq, lookup_insert_eq.
Qed.

(** Every way the example can go, by what the service does with its four
    calls. *)
Lemma file_operations_example_run w :
  file_operations_example service w =
  let path := "sample_file.txt" in
  let content := "This is a sample file for OpenAI file operations." in
  let left := delete path (disk w) in
  let failed o e := o +:+ (("Error in file operations: " +:+ exn_text e) +:+ nl) in
  let out0 := out w +:+ ((nl +:+ "=== FILE OPERATIONS ===") +:+ nl) in
  let sent1 := calls w ++ [FilesCreate path content "assistants"] in
  match files_create service (calls w) path content "assistants" with
  | inl e =>
      (Returned tt, {| out := failed out0 e; disk := left; calls := sent1 |})
  | inr uploaded =>
      let out1 :=
        out0 +:+ (("File uploaded with ID: " +:+ file_id uploaded) +:+ nl) in
      let sent2 := sent1 ++ [FilesList] in
      match files_list service sent1 with
      | inl e =>
          (Returned tt,
           {| out := failed out1 e; disk := left; calls := sent2 |})
      | inr files =>
          let out2 :=
            out1 +:+ (("Total files: " +:+ pretty (length files)) +:+ nl) in
          let sent3 := sent2 ++ [FilesRetrieve (file_id uploaded)] in
          match files_retrieve service sent2 (file_id uploaded) with
          | inl e =>
              (Returned tt,
               {| out := failed out2 e; disk := left; calls := sent3 |})
          | inr details =>
              let out3 :=
                (out2 +:+ (("File name: " +:+ filename details) +:+ nl)) +:+
                (("File size: " +:+ pretty (file_bytes details) +:+ " bytes")
                 +:+ nl) in
              let sent4 := sent3 ++ [FilesDelete (file_id uploaded)] in
              match files_delete service sent3 (file_id uploaded) with
              | inl e =>
                  (Returned tt,
                   {| out := failed out3 e; disk := left; calls := sent4 |})
              | inr _ =>
                  (Returned tt,
                   {| out := out3 +:+ ("File deleted successfully" +:+ nl);
                      disk := left; calls := sent4 |})
              end
          end
      end
  end.
Proof.
  unfold file_operations_example. rewrite wbind_wprint. cbv zeta.
  rewrite wbind_write_file. cbn [out disk calls].
  unfold wtry_except_finally, wtry_except.
  rewrite (wbind_open_rb _ "This is a sample file for OpenAI file operations.")
    by apply lookup_insert_eq.
  rewrite wbind_remote. cbn [out disk calls].
  destruct (files_create service (calls w) _ _ _) as [e | uploaded].
  { unfold wprint. cbn [out disk calls]. by rewrite sample_file_cleanup. }
  rewrite wbind_wprint, wbind_remote. cbn [out disk calls].
  destruct (files_list service _) as [e | files].
  { unfold wprint. cbn [out disk calls]. by rewrite sample_file_cleanup. }
  rewrite wbind_wprint, wbind_remote. cbn [out disk calls].
  destruct (files_retrieve service _ _) as [e | details].
  { unfold wprint. cbn [out disk calls]. by rewrite sample_file_cleanup. }
  rewrite !wbind_wprint, wbind_remote. cbn [out disk calls].
  destruct (files_delete service _ _) as [e | []].
  { unfold wprint. cbn [out disk calls]. by rewrite sample_file_cleanup. }
  unfold wprint. cbn [out disk calls]. by rewrite sample_file_cleanup.
Qed.

End FileExample.

(** X18.  [file_operations_example] never raises and always removes its
    sample file: whatever the service does, the working directory afterwards
    is the one before without [sample_file.txt] - a file of that name that
    was there before the call is gone as well, every other file is as it
    was. *)
Theorem file_example_removes_the_sample_file (service : Service) (w : World) :
  (file_operations_example service w).1 = Returned tt /\
  disk (file_operations_example service w).2 =
    delete "sample_file.txt" (disk w).
Proof.
  rewrite file_operations_example_run. cbv zeta.
  destruct (files_create service _ _ _ _); [done |].
  destruct (files_list service _); [done |].
  destruct (files_retrieve service _ _); [done |].
  by destruct (files_delete service _ _).
Qed.

(** X19.  When the service answers all four calls of
    [file_operations_example], the calls made are, in this order: the upload
    of [sample_file.txt] with the sample text and purpose ["assistants"],
    the listing, the retrieval of the uploaded file and the deletion of the
    uploaded file, both by the id the upload returned.  The id, the number
    of files listed, the name and the size retrieved and the confirmation
    are printed. *)
Theorem file_example_full_run (service : Service) (w : World)
    (uploaded details : FileObject) (files : list FileObject) :
  let upload :=
    FilesCreate "sample_file.txt"
      "This is a sample file for OpenAI file operations." "assistants" in
  files_create service (calls w) "sample_file.txt"
    "This is a sample file for OpenAI file operations." "assistants"
    = inr uploaded ->
  files_list service (calls w ++ [upload]) = inr files ->
  files_retrieve service ((calls w ++ [upload]) ++ [FilesList])
    (file_id uploaded) = inr details ->
  files_delete service
    (((calls w ++ [upload]) ++ [FilesList]) ++
       [FilesRetrieve (file_id uploaded)])
    (file_id uploaded) = inr tt ->
  file_operations_example service w =
  (Returned tt,
   {| out :=
        (((((out w +:+ ((nl +:+ "=== FILE OPERATIONS ===") +:+ nl)) +:+
            (("File uploaded with ID: " +:+ file_id uploaded) +:+ nl)) +:+
           (("Total files: " +:+ pretty (length files)) +:+ nl)) +:+
          (("File name: " +:+ filename details) +:+ nl)) +:+
         (("File size: " +:+ pretty (file_bytes details) +:+ " bytes") +:+ nl))
        +:+ ("File deleted successfully" +:+ nl);
      disk := delete "sample_file.txt" (disk w);
      calls :=
        (((calls w ++ [upload]) ++ [FilesList]) ++
           [FilesRetrieve (file_id uploaded)]) ++
          [FilesDelete (file_id uploaded)] |}).
Proof.
  intros upload H1 H2 H3 H4. rewrite file_operations_example_run. cbv zeta.
  fold upload. by rewrite H1, H2, H3, H4.
Qed.

Lemma file_example_full_run_witness :
  file_operations_example (answering_until 4) used_world =
  (Returned tt,
   {| out :=
        (((((out used_world +:+ ((nl +:+ "=== FILE OPERATIONS ===") +:+ nl)) +:+
            (("File uploaded with ID: " +:+ file_id sample_file) +:+ nl)) +:+
           (("Total files: " +:+ pretty (length [sample_file])) +:+ nl)) +:+
          (("File name: " +:+ filename sample_file) +:+ nl)) +:+
         (("File size: " +:+ pretty (file_bytes sample_file) +:+ " bytes")
          +:+ nl))
        +:+ ("File deleted successfully" +:+ nl);
      disk := delete "sample_file.txt" (disk used_world);
      calls :=
        (((calls used_world ++
             [FilesCreate "sample_file.txt"
                "This is a sample file for OpenAI file operations."
                "assistants"]) ++ [FilesList]) ++
           [FilesRetrieve (file_id sample_file)]) ++
          [FilesDelete (file_id sample_file)] |}).
Proof.
  apply (file_example_full_run (answering_until 4) used_world sample_file
           sample_file [sample_file]); reflexivity.
Defined.

(** X20.  When the upload of [file_operations_example] succeeds and the
    listing or the retrieval after it fails, the example returns without
    ever asking the service to delete the uploaded file: the calls it has
    made begin with the upload and hold no deletion.  The file stays on the
    service. *)
Theorem file_example_leaves_the_upload_behind (service : Service) (w : World)
    (uploaded : FileObject) (e : Exn) :
  let upload :=
    FilesCreate "sample_file.txt"
      "This is a sample file for OpenAI file operations." "assistants" in
  files_create service (calls w) "sample_file.txt"
    "This is a sample file for OpenAI file operations." "assistants"
    = inr uploaded ->
  (files_list service (calls w ++ [upload]) = inl e \/
   exists files,
     files_list service (calls w ++ [upload]) = inr files /\
     files_retrieve service ((calls w ++ [upload]) ++ [FilesList])
       (file_id uploaded) = inl e) ->
  (file_operations_example service w).1 = Returned tt /\
  exists later : list Call,
    calls (file_operations_example service w).2 =
      calls w ++ upload :: later /\
    forall id, FilesDelete id ∉ later.
Proof.
  intros upload H1 H2. rewrite file_operations_example_run. cbv zeta.
  fold upload. rewrite H1.
  destruct H2 as [H2 | (files & H2 & H3)]; rewrite H2; [| rewrite H3];
    (split; [reflexivity |]); cbn [snd calls].
  - exists [FilesList]. split; [by rewrite <- app_assoc |].
    intros id Hin. apply list_elem_of_singleton in Hin. discriminate.
  - exists [FilesList; FilesRetrieve (file_id uploaded)].
    split; [by rewrite <- !app_assoc |].
    intros id Hin. repeat (apply elem_of_cons in Hin as [Hin | Hin];
                           [discriminate |]).
    by apply elem_of_nil in Hin.
Qed.

Lemma file_example_leaves_the_upload_behind_witness :
  (file_operations_example (answering_until 2) empty_world).1 = Returned tt /\
  exists later : list Call,
    calls (file_operations_example (answering_until 2) empty_world).2 =
      calls empty_world ++
        FilesCreate "sample_file.txt"
          "This is a sample file for OpenAI file operations." "assistants"
        :: later /\
    forall id, FilesDelete id ∉ later.
Proof.
  apply (file_example_leaves_the_upload_behind (answering_until 2) empty_world
           sample_file timeout_error); [reflexivity |].
  right. exists [sample_file]. split; reflexivity.
Defined.

Section AssistantExample.

Variable service : Service.

(** Every way [assistants_example] can go, by what the service does with
    its five calls. *)
Lemma assistants_example_run w :
  assistants_example service w =
  let name := "Math Tutor" in
  let instructions :=
    "You are a helpful math tutor. Explain concepts clearly and provide examples." in
  let text := "Explain calculus derivatives with examples" in
  let failed o e := o +:+ (("Error in assistants: " +:+ exn_text e) +:+ nl) in
  let out0 := out w +:+ ((nl +:+ "=== ASSISTANTS API ===") +:+ nl) in
  let sent1 :=
    calls w ++
      [AssistantsCreate name instructions "gpt-4" ["code_interpreter"]] in
  match assistants_create service (calls w) name instructions "gpt-4"
          ["code_interpreter"] with
  | inl e =>
      (Returned tt, {| out := failed out0 e; disk := disk w; calls := sent1 |})
  | inr asst =>
      let out1 :=
        out0 +:+ (("Assistant created with ID: " +:+ asst) +:+ nl) in
      let sent2 := sent1 ++ [ThreadsCreate] in
      match threads_create service sent1 with
      | inl e =>
          (Returned tt,
           {| out := failed out1 e; disk := disk w; calls := sent2 |})
      | inr thread =>
          let out2 :=
            out1 +:+ (("Thread created with ID: " +:+ thread) +:+ nl) in
          let sent3 := sent2 ++ [ThreadMessagesCreate thread "user" text] in
          match thread_messages_create service sent2 thread "user" text with
          | inl e =>
              (Returned tt,
               {| out := failed out2 e; disk := disk w; calls := sent3 |})
          | inr _ =>
              let sent4 := sent3 ++ [ThreadRunsCreate thread asst] in
              match thread_runs_create service sent3 thread asst with
              | inl e =>
                  (Returned tt,
                   {| out := failed out2 e; disk := disk w; calls := sent4 |})
              | inr run =>
                  let out3 :=
                    (out2 +:+ (("Run started with ID: " +:+ run) +:+ nl)) +:+
                    ("Note: In a real application, you would poll for completion"
                     +:+ nl) in
                  let sent5 := sent4 ++ [AssistantsDelete asst] in
                  match assistants_delete service sent4 asst with
                  | inl e =>
                      (Returned tt,
                       {| out := failed out3 e; disk := disk w;
                          calls := sent5 |})
                  | inr _ =>
                      (Returned tt,
                       {| out := out3 +:+ ("Assistant deleted" +:+ nl);
                          disk := disk w; calls := sent5 |})
                  end
              end
          end
      end
  end.
Proof.
  unfold assistants_example. rewrite wbind_wprint. cbv zeta.
  unfold wtry_except. rewrite wbind_remote. cbn [out disk calls].
  destruct (assistants_create service (calls w) _ _ _ _) as [e | asst];
    [reflexivity |].
  rewrite wbind_wprint, wbind_remote. cbn [out disk calls].
  destruct (threads_create service _) as [e | thread]; [reflexivity |].
  rewrite wbind_wprint, wbind_remote. cbn [out disk calls].
  destruct (thread_messages_create service _ _ _ _) as [e | []];
    [reflexivity |].
  rewrite wbind_remote. cbn [out disk calls].
  destruct (thread_runs_create service _ _ _) as [e | run]; [reflexivity |].
  rewrite !wbind_wprint, wbind_remote. cbn [out disk calls].
  by destruct (assistants_delete service _ _) as [e | []].
Qed.

End AssistantExample.

(** X21.  When the service answers all five calls of [assistants_example],
    the calls made are, in this order: the creation of the assistant, the
    creation of a thread, a user message on that thread, a run of that
    assistant on that thread, and the deletion of that assistant - each by
    the id the service returned.  The thread is not deleted, and nothing
    waits for the run before the assistant is deleted. *)
Theorem assistants_example_full_run (service : Service) (w : World)
    (assistant thread run : string) :
  let create :=
    AssistantsCreate "Math Tutor"
      "You are a helpful math tutor. Explain concepts clearly and provide examples."
      "gpt-4" ["code_interpreter"] in
  let message :=
    ThreadMessagesCreate thread "user"
      "Explain calculus derivatives with examples" in
  assistants_create service (calls w) "Math Tutor"
    "You are a helpful math tutor. Explain concepts clearly and provide examples."
    "gpt-4" ["code_interpreter"] = inr assistant ->
  threads_create service (calls w ++ [create]) = inr thread ->
  thread_messages_create service ((calls w ++ [create]) ++ [ThreadsCreate])
    thread "user" "Explain calculus derivatives with examples" = inr tt ->
  thread_runs_create service
    (((calls w ++ [create]) ++ [ThreadsCreate]) ++ [message])
    thread assistant = inr run ->
  assistants_delete service
    ((((calls w ++ [create]) ++ [ThreadsCreate]) ++ [message]) ++
       [ThreadRunsCreate thread assistant])
    assistant = inr tt ->
  assistants_example service w =
  (Returned tt,
   {| out :=
        (((((out w +:+ ((nl +:+ "=== ASSISTANTS API ===") +:+ nl)) +:+
            (("Assistant created with ID: " +:+ assistant) +:+ nl)) +:+
           (("Thread created with ID: " +:+ thread) +:+ nl)) +:+
          (("Run started with ID: " +:+ run) +:+ nl)) +:+
         ("Note: In a real application, you would poll for completion" +:+ nl))
        +:+ ("Assistant deleted" +:+ nl);
      disk := disk w;
      calls :=
        ((((calls w ++ [create]) ++ [ThreadsCreate]) ++ [message]) ++
           [ThreadRunsCreate thread assistant]) ++
          [AssistantsDelete assistant] |}).
Proof.
  intros create message H1 H2 H3 H4 H5. rewrite assistants_example_run.
  cbv zeta. fold create. rewrite H1, H2. fold message.
  by rewrite H3, H4, H5.
Qed.

Lemma assistants_example_full_run_witness :
  assistants_example (answering_until 5) empty_world =
  (Returned tt,
   {| out :=
        (((((out empty_world +:+ ((nl +:+ "=== ASSISTANTS API ===") +:+ nl)) +:+
            (("Assistant created with ID: " +:+ "asst-1") +:+ nl)) +:+
           (("Thread created with ID: " +:+ "thread-1") +:+ nl)) +:+
          (("Run started with ID: " +:+ "run-1") +:+ nl)) +:+
         ("Note: In a real application, you would poll for completion" +:+ nl))
        +:+ ("Assistant deleted" +:+ nl);
      disk := disk empty_world;
      calls :=
        ((((calls empty_world ++
              [AssistantsCreate "Math Tutor"
                 "You are a helpful math tutor. Explain concepts clearly and provide examples."
                 "gpt-4" ["code_interpreter"]]) ++ [ThreadsCreate]) ++
            [ThreadMessagesCreate "thread-1" "user"
               "Explain calculus derivatives with examples"]) ++
           [ThreadRunsCreate "thread-1" "asst-1"]) ++
          [AssistantsDelete "asst-1"] |}).
Proof.
  apply (assistants_example_full_run (answering_until 5) empty_world
           "asst-1" "thread-1" "run-1"); reflexivity.
Defined.

(** X22.  [assistants_example] deletes the assistant only at the end of a
    full run: when the assistant has been created and one of the three calls
    after it fails - the thread, the message or the run - the example
    returns with the error printed and without a call that deletes the
    assistant.  The assistant stays on the service. *)
Theorem assistants_example_leaves_the_assistant_behind (service : Service)
    (w : World) (assistant : string) (e : Exn) :
  let create :=
    AssistantsCreate "Math Tutor"
      "You are a helpful math tutor. Explain concepts clearly and provide examples."
      "gpt-4" ["code_interpreter"] in
  let text := "Explain calculus derivatives with examples" in
  assistants_create service (calls w) "Math Tutor"
    "You are a helpful math tutor. Explain concepts clearly and provide examples."
    "gpt-4" ["code_interpreter"] = inr assistant ->
  (threads_create service (calls w ++ [create]) = inl e \/
   exists thread,
     threads_create service (calls w ++ [create]) = inr thread /\
     (thread_messages_create service
        ((calls w ++ [create]) ++ [ThreadsCreate]) thread "user" text = inl e \/
      (thread_messages_create service
         ((calls w ++ [create]) ++ [ThreadsCreate]) thread "user" text
         = inr tt /\
       thread_runs_create service
         (((calls w ++ [create]) ++ [ThreadsCreate]) ++
            [ThreadMessagesCreate thread "user" text])
         thread assistant = inl e))) ->
  (assistants_example service w).1 = Returned tt /\
  exists (printed : string) (later : list Call),
    out (assistants_example service w).2 =
      printed +:+ (("Error in assistants: " +:+ exn_text e) +:+ nl) /\
    calls (assistants_example service w).2 = calls w ++ create :: later /\
    forall id, AssistantsDelete id ∉ later.
Proof.
  intros create text H1 H2. rewrite assistants_example_run. cbv zeta.
  fold create text. rewrite H1.
  destruct H2 as [H2 | (thread & H2 & [H3 | [H3 H4]])]; rewrite H2;
    [| rewrite H3 | rewrite H3, H4];
    (split; [reflexivity |]); cbn [snd out calls].
  - eexists _, [ThreadsCreate].
    split; [reflexivity |]. split; [by rewrite <- app_assoc |].
    intros id Hin. apply list_elem_of_singleton in Hin. discriminate.
  - eexists _, [ThreadsCreate; ThreadMessagesCreate thread "user" text].
    split; [reflexivity |]. split; [by rewrite <- !app_assoc |].
    intros id Hin. repeat (apply elem_of_cons in Hin as [Hin | Hin];
                           [discriminate |]).
    by apply elem_of_nil in Hin.
  - eexists _, [ThreadsCreate; ThreadMessagesCreate thread "user" text;
                ThreadRunsCreate thread assistant].
    split; [reflexivity |]. split; [by rewrite <- !app_assoc |].
    intros id Hin. repeat (apply elem_of_cons in Hin as [Hin | Hin];
                           [discriminate |]).
    by apply elem_of_nil in Hin.
Qed.

Lemma assistants_example_leaves_the_assistant_behind_witness :
  (assistants_example (answering_until 3) empty_world).1 = Returned tt /\
  exists (printed : string) (later : list Call),
    out (assistants_example (answering_until 3) empty_world).2 =
      printed +:+
      (("Error in assistants: " +:+ exn_text timeout_error) +:+ nl) /\
    calls (assistants_example (answering_until 3) empty_world).2 =
      calls empty_world ++
        AssistantsCreate "Math Tutor"
          "You are a helpful math tutor. Explain concepts clearly and provide examples."
          "gpt-4" ["code_interpreter"]
        :: later /\
    forall id, AssistantsDelete id ∉ later.
Proof.
  apply (assistants_example_leaves_the_assistant_behind (answering_until 3)
           empty_world "asst-1" timeout_error); [reflexivity |].
  right. exists "thread-1". split; [reflexivity |].
  right. split; reflexivity.
Defined.

Section ModelExamples.

Variable service : Service.

(** The loop of [models_example]: one line for each model of the list whose
    id is among the popular ones, in the order of the list; nothing for the
    others. *)
Lemma wfor_each_print_if_popular (models : list ModelInfo) w :
  wfor_each models print_if_popular w =
  (Returned tt,
   {| out :=
        out w +:+
        joined (popular_line <$>
                  filter (fun m => model_id m ∈ guide_popular_models) models);
      disk := disk w; calls := calls w |}).
Proof.
  revert w. induction models as [| m models IH]; intros w.
  - cbn [wfor_each filter list_filter fmap list_fmap joined foldr]. unfold wret.
    rewrite string_app_nil_r. by destruct w.
  - cbn [wfor_each]. unfold print_if_popular.
    destruct (decide (model_id m ∈ guide_popular_models)) as [Hin | Hout].
    + rewrite bool_decide_true, filter_cons_True by done.
      rewrite wbind_wprint, IH. cbn [out disk calls fmap list_fmap joined foldr].
      unfold popular_line. by rewrite string_app_assoc.
    + rewrite bool_decide_false, filter_cons_False by done.
      unfold wbind, wret. by rewrite IH.
Qed.

(** The loop of [example_10_models_info]. *)
Lemma wfor_each_print_model_info (models : list ModelInfo) w :
  wfor_each models print_model_info w =
  (Returned tt,
   {| out :=
        out w +:+
        joined (model_card <$>
                  filter (fun m => model_id m ∈ quick_start_popular_models)
                    models);
      disk := disk w; calls := calls w |}).
Proof.
  revert w. induction models as [| m models IH]; intros w.
  - cbn [wfor_each filter list_filter fmap list_fmap joined foldr]. unfold wret.
    rewrite string_app_nil_r. by destruct w.
  - cbn [wfor_each]. unfold print_model_info.
    destruct (decide (model_id m ∈ quick_start_popular_models)) as [Hin | Hout].
    + rewrite bool_decide_true, filter_cons_True by done.
      unfold wbind at 1. rewrite !wbind_wprint. unfold wprint at 1.
      cbn [out disk calls]. rewrite IH.
      cbn [out disk calls fmap list_fmap joined foldr].
      unfold model_card. by rewrite !string_app_assoc.
    + rewrite bool_decide_false, filter_cons_False by done.
      unfold wbind, wret. by rewrite IH.
Qed.

End ModelExamples.

(** Every way [models_example] can go, by what the service does with its
    two calls. *)
Lemma models_example_run (service : Service) (w : World) :
  models_example service w =
  let failed o e := o +:+ (("Error in models API: " +:+ exn_text e) +:+ nl) in
  let out0 := out w +:+ ((nl +:+ "=== MODELS API ===") +:+ nl) in
  let sent1 := calls w ++ [ModelsList] in
  match models_list service (calls w) with
  | inl e =>
      (Returned tt, {| out := failed out0 e; disk := disk w; calls := sent1 |})
  | inr models =>
      let out1 :=
        (out0 +:+
         (("Total models available: " +:+ pretty (length models)) +:+ nl)) +:+
        joined (popular_line <$>
                  filter (fun m => model_id m ∈ guide_popular_models) models) in
      let sent2 := sent1 ++ [ModelsRetrieve "gpt-4"] in
      match models_retrieve service sent1 "gpt-4" with
      | inl e =>
          (Returned tt,
           {| out := failed out1 e; disk := disk w; calls := sent2 |})
      | inr gpt4_model =>
          (Returned tt,
           {| out :=
                (((out1 +:+ ((nl +:+ "GPT-4 details:") +:+ nl)) +:+
                  (("ID: " +:+ model_id gpt4_model) +:+ nl)) +:+
                 (("Owned by: " +:+ owned_by gpt4_model) +:+ nl)) +:+
                (("Created: " +:+ pretty (created gpt4_model)) +:+ nl);
              disk := disk w; calls := sent2 |})
      end
  end.
Proof.
  unfold models_example. rewrite wbind_wprint. cbv zeta.
  unfold wtry_except. rewrite wbind_remote. cbn [out disk calls].
  destruct (models_list service (calls w)) as [e | models]; [reflexivity |].
  rewrite wbind_wprint. unfold wbind at 1.
  rewrite wfor_each_print_if_popular. cbn [out disk calls].
  rewrite wbind_remote. cbn [out disk calls].
  destruct (models_retrieve service _ _) as [e | gpt4_model]; [reflexivity |].
  by rewrite !wbind_wprint.
Qed.

(** X23.  When the service answers both calls of [models_example], the
    example prints the number of all models listed, then one line for each
    listed model whose id is ["gpt-4"], ["gpt-3.5-turbo"],
    ["text-embedding-3-small"] or ["dall-e-3"] - in the order of the
    service's list, once per entry - and nothing for any other model; then
    the id, the owner and the creation time of the model retrieved as
    ["gpt-4"]. *)
Theorem models_example_lists_the_popular_models (service : Service)
    (w : World) (models : list ModelInfo) (gpt4_model : ModelInfo) :
  models_list service (calls w) = inr models ->
  models_retrieve service (calls w ++ [ModelsList]) "gpt-4" = inr gpt4_model ->
  models_example service w =
  (Returned tt,
   {| out :=
        ((((((out w +:+ ((nl +:+ "=== MODELS API ===") +:+ nl)) +:+
             (("Total models available: " +:+ pretty (length models)) +:+ nl))
            +:+
            joined (popular_line <$>
                      filter (fun m => model_id m ∈ guide_popular_models)
                        models)) +:+
           ((nl +:+ "GPT-4 details:") +:+ nl)) +:+
          (("ID: " +:+ model_id gpt4_model) +:+ nl)) +:+
         (("Owned by: " +:+ owned_by gpt4_model) +:+ nl)) +:+
        (("Created: " +:+ pretty (created gpt4_model)) +:+ nl);
      disk := disk w;
      calls := (calls w ++ [ModelsList]) ++ [ModelsRetrieve "gpt-4"] |}).
Proof.
  intros H1 H2. rewrite models_example_run. cbv zeta. by rewrite H1, H2.
Qed.

Lemma models_example_lists_the_popular_models_witness :
  models_example (answering_until 2) empty_world =
  (Returned tt,
   {| out :=
        ((((((out empty_world +:+ ((nl +:+ "=== MODELS API ===") +:+ nl)) +:+
             (("Total models available: " +:+ pretty (length sample_models))
              +:+ nl))
            +:+
            joined (popular_line <$>
                      filter (fun m => model_id m ∈ guide_popular_models)
                        sample_models)) +:+
           ((nl +:+ "GPT-4 details:") +:+ nl)) +:+
          (("ID: " +:+
            model_id {| model_id := "gpt-4"; created := 1687882411;
                        owned_by := "openai" |}) +:+ nl)) +:+
         (("Owned by: " +:+
           owned_by {| model_id := "gpt-4"; created := 1687882411;
                       owned_by := "openai" |}) +:+ nl)) +:+
        (("Created: " +:+
          pretty (created {| model_id := "gpt-4"; created := 1687882411;
                             owned_by := "openai" |})) +:+ nl);
      disk := disk empty_world;
      calls :=
        (calls empty_world ++ [ModelsList]) ++ [ModelsRetrieve "gpt-4"] |}).
Proof.
  apply (models_example_lists_the_popular_models (answering_until 2)
           empty_world sample_models
           {| model_id := "gpt-4"; created := 1687882411;
              owned_by := "openai" |}); reflexivity.
Defined.

(** The sample list through the filter of [models_example]: the second and
    the third model are left out. *)
Example popular_sample_models :
  model_id <$>
    filter (fun m => model_id m ∈ guide_popular_models) sample_models =
  ["gpt-4"; "dall-e-3"].
Proof. reflexivity. Qed.

(** X24.  [example_10_models_info] makes one call, the listing.  When the
    service answers, the example prints, for each listed model whose id is
    ["gpt-4"], ["gpt-3.5-turbo"], ["text-embedding-3-small"], ["dall-e-3"]
    or ["whisper-1"], its id, creation time and owner and an empty line - in
    the order of the service's list - and nothing for any other model; when
    the call fails, the example raises the exception of the service with
    only its heading printed. *)
Theorem example_10_lists_the_popular_models (service : Service) (w : World) :
  example_10_models_info service w =
  let out0 :=
    out w +:+ ((nl +:+ "=== Example 10: Available Models ===") +:+ nl) in
  match models_list service (calls w) with
  | inl e =>
      (Raised e,
       {| out := out0; disk := disk w; calls := calls w ++ [ModelsList] |})
  | inr models =>
      (Returned tt,
       {| out :=
            out0 +:+
            joined (model_card <$>
                      filter (fun m => model_id m ∈ quick_start_popular_models)
                        models);
          disk := disk w; calls := calls w ++ [ModelsList] |})
  end.
Proof.
  unfold example_10_models_info. rewrite wbind_wprint, wbind_remote.
  cbn [out disk calls].
  destruct (models_list service (calls w)) as [e | models]; [reflexivity |].
  by rewrite wfor_each_print_model_info.
Qed.

(** X25.  [assistants_example] and [models_example] never raise, whatever
    the service does, and neither touches the working directory. *)
Theorem assistants_and_models_examples_never_raise (service : Service)
    (w : World) :
  ((assistants_example service w).1 = Returned tt /\
   disk (assistants_example service w).2 = disk w) /\
  ((models_example service w).1 = Returned tt /\
   disk (models_example service w).2 = disk w).
Proof.
  split.
  - rewrite assistants_example_run. cbv zeta.
    destruct (assistants_create service _ _ _ _ _); [done |].
    destruct (threads_create service _); [done |].
    destruct (thread_messages_create service _ _ _ _); [done |].
    destruct (thread_runs_create service _ _ _); [done |].
    by destruct (assistants_delete service _ _).
  - rewrite models_example_run. cbv zeta.
    destruct (models_list service _); [done |].
    by destruct (models_retrieve service _ _).
Qed.

(** In a working directory that already has a [sample_file.txt], the file
    example leaves the other file and takes that one away. *)
Example older_sample_file_is_removed :
  disk (file_operations_example (answering_until 4) used_world).2 !!
    "sample_file.txt" = None /\
  disk (file_operations_example (answering_until 4) used_world).2 !!
    "notes.txt" = Some "keep me".
Proof.
  rewrite file_operations_example_run. cbv zeta.
  cbn [files_create files_list files_retrieve files_delete answering_until
       calls used_world length app].
  repeat (destruct (decide _) as [_ | Hge]; [| exfalso; apply Hge; simpl; lia]).
  cbn [snd disk]. split.
  - apply lookup_delete_eq.
  - rewrite lookup_delete_ne by discriminate. reflexivity.
Qed.
